(** * The points ledger of the Evotor loyalty bot (src/bot.py)

    A shallow embedding of [LoyaltyDB] (the SQLite-backed ledger), of the
    webhook handler [evotor_webhook], of the chat handlers that read and
    write the ledger, and of the Python builtins they rest on, followed by
    the properties of the ledger and of its entry points.

    Conventions of the model.
    - A Python [float] is a binary64 value: Rocq's primitive [float].
    - A Python [int], and an SQLite INTEGER column, is a [Z].  SQLite stores
      64-bit integers; magnitudes beyond that are outside the model.
    - A table is the list of its rows in insertion order.  The timestamp
      columns (registration_date, timestamp) are left out: the clock is not
      part of the ledger.
    - A method of [LoyaltyDB] takes the database and returns its outcome
      together with the database it leaves behind.  An exception raised
      before [conn.commit()] rolls the connection back, so the database
      left behind is the one the call started from.
    - A chat handler takes the database and the sender's user data and
      returns the state it answers with, its replies (by the values they
      show) and what it leaves behind.
    - Log lines, keyboards, the picture of the code and the outbound chat
      notification are not modelled. *)

From Stdlib Require Import ZArith List String Ascii Bool Lia Floats.
From Stdlib Require Import DecimalString DecimalZ QArith Qround Qpower.
Import ListNotations.

Open Scope string_scope.
Open Scope list_scope.
Open Scope Z_scope.

(** ** Outcomes of Python code *)

(** The exceptions the modelled code can raise. *)
Inductive exn : Type :=
| TypeError
| ValueError
| OverflowError
| AttributeError
| IntegrityError
| InterfaceError.

Inductive result (A : Type) : Type :=
| Ok (a : A)
| Raise (e : exn).
Arguments Ok {A} a.
Arguments Raise {A} e.

Definition bind {A B : Type} (r : result A) (k : A -> result B) : result B :=
  match r with
  | Ok a => k a
  | Raise e => Raise e
  end.

Notation "x <- r ;; k" := (bind r (fun x => k))
  (at level 61, r at next level, right associativity).

(** ** Python strings of integers *)

(** [str(n)] for an int. *)
Definition py_str (n : Z) : string := NilZero.string_of_int (Z.to_int n).

Fixpoint zeros (k : nat) : string :=
  match k with
  | O => EmptyString
  | S k' => String "0" (zeros k')
  end.

(** [s.zfill(width)]: zeros go after a leading sign. *)
Definition zfill (s : string) (width : nat) : string :=
  if (width <=? String.length s)%nat then s
  else
    let pad := zeros (width - String.length s) in
    match s with
    | String c rest =>
        if (Ascii.eqb c "+" || Ascii.eqb c "-")%bool
        then String c (pad ++ rest)%string
        else (pad ++ s)%string
    | EmptyString => pad
    end.

(** [s.encode()]: the bytes of the string. *)
Definition encode (s : string) : list Z :=
  map (fun c => Z.of_N (N_of_ascii c)) (list_ascii_of_string s).

(** ** hashlib.md5 (RFC 1321) *)

Module MD5.

Definition add32 (a b : Z) : Z := (a + b) mod 2 ^ 32.

Definition not32 (x : Z) : Z := Z.lxor x 0xFFFFFFFF.

Definition rotl32 (x c : Z) : Z :=
  Z.lor (Z.shiftl x c mod 2 ^ 32) (Z.shiftr x (32 - c)).

Definition K : list Z :=
  [ 0xd76aa478; 0xe8c7b756; 0x242070db; 0xc1bdceee;
    0xf57c0faf; 0x4787c62a; 0xa8304613; 0xfd469501;
    0x698098d8; 0x8b44f7af; 0xffff5bb1; 0x895cd7be;
    0x6b901122; 0xfd987193; 0xa679438e; 0x49b40821;
    0xf61e2562; 0xc040b340; 0x265e5a51; 0xe9b6c7aa;
    0xd62f105d; 0x02441453; 0xd8a1e681; 0xe7d3fbc8;
    0x21e1cde6; 0xc33707d6; 0xf4d50d87; 0x455a14ed;
    0xa9e3e905; 0xfcefa3f8; 0x676f02d9; 0x8d2a4c8a;
    0xfffa3942; 0x8771f681; 0x6d9d6122; 0xfde5380c;
    0xa4beea44; 0x4bdecfa9; 0xf6bb4b60; 0xbebfbc70;
    0x289b7ec6; 0xeaa127fa; 0xd4ef3085; 0x04881d05;
    0xd9d4d039; 0xe6db99e5; 0x1fa27cf8; 0xc4ac5665;
    0xf4292244; 0x432aff97; 0xab9423a7; 0xfc93a039;
    0x655b59c3; 0x8f0ccc92; 0xffeff47d; 0x85845dd1;
    0x6fa87e4f; 0xfe2ce6e0; 0xa3014314; 0x4e0811a1;
    0xf7537e82; 0xbd3af235; 0x2ad7d2bb; 0xeb86d391 ].

Definition shifts : list Z :=
  [ 7; 12; 17; 22; 7; 12; 17; 22; 7; 12; 17; 22; 7; 12; 17; 22;
    5;  9; 14; 20; 5;  9; 14; 20; 5;  9; 14; 20; 5;  9; 14; 20;
    4; 11; 16; 23; 4; 11; 16; 23; 4; 11; 16; 23; 4; 11; 16; 23;
    6; 10; 15; 21; 6; 10; 15; 21; 6; 10; 15; 21; 6; 10; 15; 21 ].

Definition word_at (l : list Z) (i : Z) : Z := nth (Z.to_nat i) l 0.

(** The round function and the message word used at step [i]. *)
Definition mix (i b c d : Z) : Z :=
  if i <? 16 then Z.lor (Z.land b c) (Z.land (not32 b) d)
  else if i <? 32 then Z.lor (Z.land d b) (Z.land (not32 d) c)
  else if i <? 48 then Z.lxor (Z.lxor b c) d
  else Z.lxor c (Z.lor b (not32 d)).

Definition word_index (i : Z) : Z :=
  if i <? 16 then i
  else if i <? 32 then (5 * i + 1) mod 16
  else if i <? 48 then (3 * i + 5) mod 16
  else (7 * i) mod 16.

Definition state : Type := (Z * Z * Z * Z)%type.

Definition step (M : list Z) (st : state) (i : Z) : state :=
  let '(a, b, c, d) := st in
  let f := add32 (add32 (add32 (mix i b c d) a) (word_at K i))
                 (word_at M (word_index i)) in
  (d, add32 b (rotl32 f (word_at shifts i)), b, c).

(** Little-endian 32-bit words of a byte sequence. *)
Fixpoint words (bytes : list Z) (n : nat) : list Z :=
  match n, bytes with
  | S n', b0 :: b1 :: b2 :: b3 :: rest =>
      (b0 + 256 * b1 + 65536 * b2 + 16777216 * b3) :: words rest n'
  | _, _ => []
  end.

Definition compress (st : state) (block : list Z) : state :=
  let '(a0, b0, c0, d0) := st in
  let '(a, b, c, d) :=
    fold_left (step (words block 16)) (map Z.of_nat (seq 0 64)) st in
  (add32 a0 a, add32 b0 b, add32 c0 c, add32 d0 d).

Definition le_bytes (x : Z) (n : nat) : list Z :=
  map (fun k => (x / 256 ^ Z.of_nat k) mod 256) (seq 0 n).

(** The message, 0x80, zero bytes up to 56 modulo 64, the bit length. *)
Definition pad (msg : list Z) : list Z :=
  let len := Z.of_nat (List.length msg) in
  let fill := (55 - len) mod 64 in
  msg ++ [0x80] ++ repeat 0 (Z.to_nat fill)
      ++ le_bytes ((8 * len) mod 2 ^ 64) 8.

Fixpoint blocks (bytes : list Z) (n : nat) : list (list Z) :=
  match n with
  | O => []
  | S n' => firstn 64 bytes :: blocks (skipn 64 bytes) n'
  end.

Definition digest (msg : list Z) : list Z :=
  let padded := pad msg in
  let '(a, b, c, d) :=
    fold_left compress (blocks padded (List.length padded / 64))
              (0x67452301, 0xefcdab89, 0x98badcfe, 0x10325476) in
  le_bytes a 4 ++ le_bytes b 4 ++ le_bytes c 4 ++ le_bytes d 4.

Definition hex_digit (n : Z) : ascii :=
  nth (Z.to_nat n) (list_ascii_of_string "0123456789abcdef") "0"%char.

Fixpoint hex (bytes : list Z) : string :=
  match bytes with
  | [] => EmptyString
  | b :: rest => String (hex_digit (b / 16)) (String (hex_digit (b mod 16)) (hex rest))
  end.

Definition hexdigest (msg : list Z) : string := hex (digest msg).

End MD5.

(** ** LoyaltyDB.generate_qr_code *)

(** [f"{str(user_id).zfill(3)}-{hashlib.md5(str(user_id).encode()).hexdigest()[:3]}"] *)
Definition generate_qr_code (user_id : Z) : string :=
  (zfill (py_str user_id) 3 ++ "-"
     ++ substring 0 3 (MD5.hexdigest (encode (py_str user_id))))%string.

(** ** Python numbers *)

(** [float(n)] for an int, before the overflow check: the nearest binary64
    value, ties to even; an int of 1024 bits or more gives an infinity. *)
Definition Z2float (n : Z) : float :=
  SF2Prim (binary_normalize prec emax n 0 false).

(** [float(n)], and the conversion of the int operand of a mixed
    int/float operation: OverflowError when the int is too large. *)
Definition py_float_of_int (n : Z) : result float :=
  match binary_normalize prec emax n 0 false with
  | S754_infinity _ => Raise OverflowError
  | _ => Ok (Z2float n)
  end.

(** [int(f)]: truncation toward zero; ValueError on a NaN, OverflowError
    on an infinity. *)
Definition py_int (f : float) : result Z :=
  match Prim2SF f with
  | S754_zero _ => Ok 0
  | S754_finite s m e => Ok (cond_Zopp s (Z.shiftl (Zpos m) e))
  | S754_infinity _ => Raise OverflowError
  | S754_nan => Raise ValueError
  end.

(** The rational number a finite float stands for (0 for the others). *)
Definition float_value (f : float) : Q :=
  match Prim2SF f with
  | S754_finite s m e => inject_Z (cond_Zopp s (Zpos m)) * (2 ^ e)%Q
  | _ => 0%Q
  end.

(** Truth value of a float: false on 0.0 and -0.0 only. *)
Definition float_truthy (f : float) : bool := negb (f =? 0)%float.

(** Truth value of an optional float argument ([None] is false). *)
Definition opt_float_truthy (o : option float) : bool :=
  match o with
  | Some f => float_truthy f
  | None => false
  end.

(** A number that is an int or a float, as [spend_points] returns for the
    discount. *)
Inductive pynum : Type :=
| PyInt (n : Z)
| PyFloat (f : float).

(** ** Configuration *)

Module LOYALTY_SETTINGS.
(** 0.05, the binary64 value 0x1.999999999999ap-5 *)
Definition points_per_purchase : float := 0x1.999999999999ap-5%float.
(** 0.01, the binary64 value 0x1.47ae147ae147bp-7 *)
Definition discount_per_point : float := 0x1.47ae147ae147bp-7%float.
Definition max_discount : Z := 50.
Definition welcome_bonus : Z := 100.
Definition birthday_bonus : Z := 500.
End LOYALTY_SETTINGS.

(** ** The tables *)

Record user : Type := mkUser {
  user_id : Z;
  telegram_id : Z;
  name : option string;
  phone : option string;
  gender : option string;
  total_purchases : float;
  total_points : Z;
  current_points : Z;
  qr_code : option string;
  is_active : bool
}.

(** The text of a transaction's description column, by the f-string that
    builds it and the values it formats. *)
Inductive description : Type :=
| DescrRegistrationBonus
| DescrPurchase (amount : float)
| DescrPurchaseEvotor (amount : float)
| DescrSpend (points : Z) (discount : pynum)
| DescrText (text : string).

Record transaction : Type := mkTransaction {
  transaction_id : Z;
  tx_user_id : Z;
  tx_type : string;
  amount : option float;
  points_change : Z;
  tx_description : description
}.

(** [users_seq] and [transactions_seq] are the AUTOINCREMENT counters
    (sqlite_sequence): the largest row id ever given out. *)
Record db : Type := mkDb {
  users : list user;
  transactions : list transaction;
  users_seq : Z;
  transactions_seq : Z
}.

Definition empty_db : db := mkDb [] [] 0 0.

(** The next AUTOINCREMENT row id: one more than the largest id in the
    table or ever given out. *)
Definition next_user_id (d : db) : Z :=
  1 + fold_right Z.max (users_seq d) (map user_id (users d)).

Definition next_transaction_id (d : db) : Z :=
  1 + fold_right Z.max (transactions_seq d) (map transaction_id (transactions d)).

(** INSERT INTO transactions (user_id, type, amount, points_change, description) *)
Definition insert_transaction (d : db) (uid : Z) (ty : string)
    (amt : option float) (pts : Z) (descr : description) : db :=
  let tid := next_transaction_id d in
  mkDb (users d)
       (transactions d ++ [mkTransaction tid uid ty amt pts descr])
       (users_seq d) tid.

(** UPDATE users SET ... WHERE <cond> *)
Definition update_users (d : db) (cond : user -> bool) (f : user -> user) : db :=
  mkDb (map (fun u => if cond u then f u else u) (users d))
       (transactions d) (users_seq d) (transactions_seq d).

(** SELECT ... FROM users WHERE <cond>, then fetchone() *)
Definition select_user (d : db) (cond : user -> bool) : option user :=
  find cond (users d).

Definition has_user_id (uid : Z) (u : user) : bool := user_id u =? uid.

Definition has_telegram_id (tg : Z) (u : user) : bool := telegram_id u =? tg.

Definition has_qr_code (code : string) (u : user) : bool :=
  match qr_code u with
  | Some c => String.eqb c code
  | None => false
  end.

Definition set_qr_code (code : string) (u : user) : user :=
  mkUser (user_id u) (telegram_id u) (name u) (phone u) (gender u)
         (total_purchases u) (total_points u) (current_points u)
         (Some code) (is_active u).

(** SET total_purchases = total_purchases + ?, total_points = total_points + ?,
    current_points = current_points + ? *)
Definition credit_purchase (amt : float) (pts : Z) (u : user) : user :=
  mkUser (user_id u) (telegram_id u) (name u) (phone u) (gender u)
         (total_purchases u + amt)%float (total_points u + pts)
         (current_points u + pts) (qr_code u) (is_active u).

(** SET current_points = current_points + ?, total_points = total_points + ? *)
Definition adjust_points (cur tot : Z) (u : user) : user :=
  mkUser (user_id u) (telegram_id u) (name u) (phone u) (gender u)
         (total_purchases u) (total_points u + tot)
         (current_points u + cur) (qr_code u) (is_active u).

(** SET current_points = current_points - ? *)
Definition debit_points (pts : Z) (u : user) : user :=
  mkUser (user_id u) (telegram_id u) (name u) (phone u) (gender u)
         (total_purchases u) (total_points u)
         (current_points u - pts) (qr_code u) (is_active u).

(** ** LoyaltyDB *)

(** [existing[1] or self.generate_qr_code(existing[0])]: a NULL or empty
    code is falsy. *)
Definition stored_or_generated_code (u : user) : string :=
  match qr_code u with
  | Some (String c rest) => String c rest
  | _ => generate_qr_code (user_id u)
  end.

(** [add_user]: the (user_id, qr_code) of the account of [tg], created with
    the welcome bonus when there is none.  The UPDATE that stores the code
    fails on the UNIQUE constraint when another row holds it. *)
Definition add_user (d : db) (tg : Z) (nm ph gd : option string)
  : result (Z * string) * db :=
  match select_user d (has_telegram_id tg) with
  | Some existing => (Ok (user_id existing, stored_or_generated_code existing), d)
  | None =>
      let uid := next_user_id d in
      let row := mkUser uid tg nm ph gd 0%float 0
                        LOYALTY_SETTINGS.welcome_bonus None true in
      let d1 := mkDb (users d ++ [row]) (transactions d) uid (transactions_seq d) in
      let code := generate_qr_code uid in
      if existsb (has_qr_code code) (users d)
      then (Raise IntegrityError, d)
      else
        let d2 := update_users d1 (has_user_id uid) (set_qr_code code) in
        let d3 := insert_transaction d2 uid "bonus" None
                    LOYALTY_SETTINGS.welcome_bonus DescrRegistrationBonus in
        (Ok (uid, code), d3)
  end.

(** [get_user_by_qr]: WHERE qr_code = ? AND is_active = 1 *)
Definition get_user_by_qr (d : db) (code : string) : option user :=
  select_user d (fun u => has_qr_code code u && is_active u).

(** [add_purchase_by_qr]: [None] when no active account holds the code;
    otherwise (telegram_id, earned, new_balance). *)
Definition add_purchase_by_qr (d : db) (code : string) (amt : float)
  : result (option (Z * Z * Z)) * db :=
  match get_user_by_qr d code with
  | None => (Ok None, d)
  | Some row =>
      match py_int (amt * LOYALTY_SETTINGS.points_per_purchase)%float with
      | Raise e => (Raise e, d)
      | Ok earned =>
          let d1 := update_users d (has_qr_code code) (credit_purchase amt earned) in
          let d2 := insert_transaction d1 (user_id row) "purchase" (Some amt)
                      earned (DescrPurchaseEvotor amt) in
          match select_user d2 (has_user_id (user_id row)) with
          | None => (Raise TypeError, d2)
          | Some u => (Ok (Some (telegram_id row, earned, current_points u)), d2)
          end
      end
  end.

(** [add_purchase]: (points_earned, new_balance).  The UPDATE and the
    INSERT are committed before the balance is read back, so the
    [fetchone()[0]] that fails on a missing account fails after the
    commit. *)
Definition add_purchase (d : db) (uid : Z) (amt : float)
  : result (Z * Z) * db :=
  match py_int (amt * LOYALTY_SETTINGS.points_per_purchase)%float with
  | Raise e => (Raise e, d)
  | Ok points_earned =>
      let d1 := update_users d (has_user_id uid) (credit_purchase amt points_earned) in
      let d2 := insert_transaction d1 uid "purchase" (Some amt)
                  points_earned (DescrPurchase amt) in
      match select_user d2 (has_user_id uid) with
      | None => (Raise TypeError, d2)
      | Some u => (Ok (points_earned, current_points u), d2)
      end
  end.

(** [max_points_for_discount] of [spend_points]: 0 without a purchase
    amount, else int(purchase_amount * max_discount / 100 / discount_per_point). *)
Definition max_points_for_discount (purchase_amount : option float) : result Z :=
  match purchase_amount with
  | Some pa =>
      if float_truthy pa then
        let max_discount_amount :=
          (pa * Z2float LOYALTY_SETTINGS.max_discount / Z2float 100)%float in
        py_int (max_discount_amount / LOYALTY_SETTINGS.discount_per_point)%float
      else Ok 0
  | None => Ok 0
  end.

(** [min(discount, max_discount)]: the int when it is smaller. *)
Definition min_discount (discount : float) : pynum :=
  if (Z2float LOYALTY_SETTINGS.max_discount <? discount)%float
  then PyInt LOYALTY_SETTINGS.max_discount
  else PyFloat discount.

(** [max_discount < discount], as Python compares the two numbers. *)
Definition exceeds_max_discount (discount : pynum) : bool :=
  match discount with
  | PyInt n => LOYALTY_SETTINGS.max_discount <? n
  | PyFloat f => (Z2float LOYALTY_SETTINGS.max_discount <? f)%float
  end.

(** The points written off and the discount returned, once the balance
    check has passed.  (The source also computes a discount_amount that it
    never uses.) *)
Definition spend_plan (points_to_spend : Z) (purchase_amount : option float)
  : result (Z * pynum) :=
  max_points <- max_points_for_discount purchase_amount ;;
  let points :=
    if opt_float_truthy purchase_amount && (max_points <? points_to_spend)
    then max_points else points_to_spend in
  f <- py_float_of_int points ;;
  let discount := (f * LOYALTY_SETTINGS.discount_per_point)%float in
  Ok (points,
      if opt_float_truthy purchase_amount then min_discount discount
      else PyFloat discount).

(** [spend_points]: (success, balance, discount). *)
Definition spend_points (d : db) (uid : Z) (points_to_spend : Z)
    (purchase_amount : option float) : result (bool * Z * pynum) * db :=
  match select_user d (has_user_id uid) with
  | None => (Raise TypeError, d)
  | Some row =>
      if current_points row <? points_to_spend
      then (Ok (false, current_points row, PyFloat 0%float), d)
      else
        match spend_plan points_to_spend purchase_amount with
        | Raise e => (Raise e, d)
        | Ok (points, discount) =>
            let d1 := update_users d (has_user_id uid) (debit_points points) in
            let d2 := insert_transaction d1 uid "spend" None (- points)
                        (DescrSpend points discount) in
            match select_user d2 (has_user_id uid) with
            | None => (Raise TypeError, d2)
            | Some u => (Ok (true, current_points u, discount), d2)
            end
        end
  end.

(** [update_user_points]: the balance moves by [points], the lifetime
    total by max(0, points).  The statements cannot fail on the modelled
    tables, so the [except] branch that returns False is never taken. *)
Definition update_user_points (d : db) (uid : Z) (points : Z) (descr : string)
  : result bool * db :=
  let d1 := update_users d (has_user_id uid) (adjust_points points (Z.max 0 points)) in
  let d2 := insert_transaction d1 uid "admin" None points (DescrText descr) in
  (Ok true, d2).

(** ** Sequences of ledger calls *)

(** A call of one of the five mutating methods, with its arguments. *)
Inductive op : Type :=
| OpAddUser (tg : Z) (nm ph gd : option string)
| OpAddPurchase (uid : Z) (amt : float)
| OpAddPurchaseByQr (code : string) (amt : float)
| OpSpendPoints (uid points_to_spend : Z) (purchase_amount : option float)
| OpUpdateUserPoints (uid points : Z) (descr : string).

(** The database a call leaves behind, whatever it returns or raises. *)
Definition exec (d : db) (o : op) : db :=
  match o with
  | OpAddUser tg nm ph gd => snd (add_user d tg nm ph gd)
  | OpAddPurchase uid amt => snd (add_purchase d uid amt)
  | OpAddPurchaseByQr code amt => snd (add_purchase_by_qr d code amt)
  | OpSpendPoints uid pts pa => snd (spend_points d uid pts pa)
  | OpUpdateUserPoints uid pts descr => snd (update_user_points d uid pts descr)
  end.

Definition run (ops : list op) (d : db) : db := fold_left exec ops d.

Definition user_exists (d : db) (uid : Z) : bool :=
  existsb (has_user_id uid) (users d).

(** The two methods that take a user_id without looking the account up
    are called on an existing account, as the bot's handlers call them
    (after [get_user_info] and [get_user_by_id]). *)
Definition targets_existing (d : db) (o : op) : bool :=
  match o with
  | OpAddPurchase uid _ => user_exists d uid
  | OpUpdateUserPoints uid _ _ => user_exists d uid
  | _ => true
  end.

Fixpoint well_targeted (d : db) (ops : list op) : bool :=
  match ops with
  | [] => true
  | o :: rest => targets_existing d o && well_targeted (exec d o) rest
  end.

(** The sum of points_change over the transactions of an account. *)
Definition transactions_of (d : db) (uid : Z) : list transaction :=
  filter (fun t => tx_user_id t =? uid) (transactions d).

Definition points_sum (d : db) (uid : Z) : Z :=
  fold_right Z.add 0 (map points_change (transactions_of d uid)).

(** The number of registration-bonus transactions of an account. *)
Definition bonus_count (d : db) (uid : Z) : nat :=
  List.length (filter (fun t => String.eqb (tx_type t) "bonus") (transactions_of d uid)).

(** ** The webhook *)

(** A decoded JSON payload, as [json.loads] gives it. *)
#[warnings="-register-all"]
Inductive json : Type :=
| JNull
| JBool (b : bool)
| JInt (n : Z)
| JFloat (f : float)
| JStr (s : string)
| JList (items : list json)
| JDict (fields : list (string * json)).

(** Truth value of a Python object. *)
Definition truthy (v : json) : bool :=
  match v with
  | JNull => false
  | JBool b => b
  | JInt n => negb (n =? 0)
  | JFloat f => float_truthy f
  | JStr s => negb (String.eqb s "")
  | JList items => match items with [] => false | _ => true end
  | JDict fields => match fields with [] => false | _ => true end
  end.

Fixpoint lookup (fields : list (string * json)) (key : string) : json :=
  match fields with
  | [] => JNull
  | (k, v) :: rest => if String.eqb k key then v else lookup rest key
  end.

(** [v.get(key)]: [None] on a missing key; only a dict has the method. *)
Definition py_get (v : json) (key : string) : result json :=
  match v with
  | JDict fields => Ok (lookup fields key)
  | _ => Raise AttributeError
  end.

(** [a or b], with [b] evaluated only when [a] is falsy. *)
Definition py_or (a : result json) (b : result json) : result json :=
  x <- a ;; if truthy x then Ok x else b.

(** The body of a response of the endpoint. *)
Inductive error_text : Type :=
| InvalidTotalFormat
| StrOfException (e : exn).

Inductive response : Type :=
| RespIgnored (message : string)
| RespError (message : error_text)
| RespNotFound (message : string)
| RespOk (points balance : Z) (message : string).

Section Webhook.

(** [float(s)] on a string: the value, or [None] for ValueError. *)
Variable float_of_str : string -> option float.

(** The text SQLite compares a TEXT column with when the bound parameter
    is a REAL. *)
Variable sqlite_real_text : float -> string.

(** [float(total)] *)
Definition py_float (v : json) : result float :=
  match v with
  | JBool b => Ok (if b then 1%float else 0%float)
  | JInt n => py_float_of_int n
  | JFloat f => Ok f
  | JStr s => match float_of_str s with
              | Some f => Ok f
              | None => Raise ValueError
              end
  | JNull | JList _ | JDict _ => Raise TypeError
  end.

(** The text a bound [qr_code] parameter is compared as: the column has
    TEXT affinity, so a number is rendered as text; a NULL ([None]) equals
    no row.  An int beyond 64 bits and a list or dict cannot be bound. *)
Definition bound_text (v : json) : result (option string) :=
  match v with
  | JStr s => Ok (Some s)
  | JInt n => if (- 2 ^ 63 <=? n) && (n <? 2 ^ 63) then Ok (Some (py_str n))
              else Raise OverflowError
  | JBool b => Ok (Some (if b then "1" else "0"))
  | JFloat f => Ok (Some (sqlite_real_text f))
  | JNull => Ok None
  | JList _ | JDict _ => Raise InterfaceError
  end.

(** The fields the handler reads from the payload: (qr_code, total). *)
Definition extract_fields (data : json) : result (json * json) :=
  receipt <- py_or (py_get data "document") (py_or (py_get data "receipt") (Ok data)) ;;
  total <- py_or (py_get receipt "total")
                 (py_or (py_get receipt "sum") (py_get receipt "amount")) ;;
  extra <- py_or (py_get receipt "extra")
                 (py_or (py_get receipt "additional") (Ok (JDict []))) ;;
  qr_code <- py_or (py_get extra "clientCode")
                   (py_or (py_get extra "qrCode") (py_get data "clientCode")) ;;
  qr_code <- (if truthy qr_code then Ok qr_code
              else py_or (py_get receipt "clientCode") (py_get data "clientCode")) ;;
  Ok (qr_code, total).

(** [evotor_webhook] on the decoded body: the response and the database
    left behind.  Every exception ends in an error response
    ([except Exception]), as does a body that is not JSON; the inner [try]
    around [float(total)] catches everything. *)
Definition evotor_webhook (d : db) (data : json) : response * db :=
  match extract_fields data with
  | Raise e => (RespError (StrOfException e), d)
  | Ok (qr_code, total) =>
      if negb (truthy qr_code) || negb (truthy total)
      then (RespIgnored "Missing QR code or total", d)
      else
        match py_float total with
        | Raise _ => (RespError InvalidTotalFormat, d)
        | Ok total_float =>
            match bound_text qr_code with
            | Raise e => (RespError (StrOfException e), d)
            | Ok None => (RespNotFound "Client not found", d)
            | Ok (Some code) =>
                match add_purchase_by_qr d code total_float with
                | (Raise e, d') => (RespError (StrOfException e), d')
                | (Ok None, d') => (RespNotFound "Client not found", d')
                | (Ok (Some (_, earned, balance)), d') =>
                    (RespOk earned balance "Points added successfully", d')
                end
            end
        end
  end.

End Webhook.

(** ** Vocabulary of the ledger invariants *)

(** [k] zero digits in front of a decimal numeral. *)
Fixpoint lead_zeros (k : nat) (d : Decimal.uint) : Decimal.uint :=
  match k with
  | O => d
  | S k' => Decimal.D0 (lead_zeros k' d)
  end.

(** A ledger write: an UPDATE of the rows selected by [c], then the INSERT
    of one transaction. *)
Definition posting (d : db) (c : user -> bool) (f : user -> user)
    (uid : Z) (ty : string) (amt : option float) (pts : Z) (descr : description) : db :=
  insert_transaction (update_users d c f) uid ty amt pts descr.

(** The database [add_user] leaves when it creates the account. *)
Definition registered (d : db) (tg : Z) (nm ph gd : option string) : db :=
  let uid := next_user_id d in
  insert_transaction
    (update_users
       (mkDb (users d ++ [mkUser uid tg nm ph gd 0%float 0
                                 LOYALTY_SETTINGS.welcome_bonus None true])
             (transactions d) uid (transactions_seq d))
       (has_user_id uid) (set_qr_code (generate_qr_code uid)))
    uid "bonus" None LOYALTY_SETTINGS.welcome_bonus DescrRegistrationBonus.

(** An update that leaves the id and the code of a row alone. *)
Definition keeps_identity (f : user -> user) : Prop :=
  forall u, user_id (f u) = user_id u /\ qr_code (f u) = qr_code u
            /\ telegram_id (f u) = telegram_id u.

(** Every account has a positive id and holds the code generated from it. *)
Definition codes_ok (d : db) : Prop :=
  0 <= users_seq d /\
  forall u, In u (users d) ->
    0 < user_id u /\ qr_code u = Some (generate_qr_code (user_id u)).

(** Every transaction belongs to an account, and every balance is the sum
    of the account's transactions. *)
Definition sums_ok (d : db) : Prop :=
  (forall t, In t (transactions d) -> user_exists d (tx_user_id t) = true) /\
  (forall u, In u (users d) -> current_points u = points_sum d (user_id u)).

(** Every account has one registration bonus, and only accounts have one. *)
Definition bonus_ok (d : db) : Prop :=
  forall uid, bonus_count d uid = if user_exists d uid then 1%nat else 0%nat.

(** A JSON number (or [false]) that equals 0. *)
Definition is_zero_number (v : json) : bool :=
  match v with
  | JInt n => n =? 0
  | JFloat f => (f =? 0)%float
  | JBool b => negb b
  | _ => false
  end.

(** ** Sample ledgers *)

(** One customer who registers, buys, redeems, is corrected by the
    administrator and buys again at a terminal. *)
Definition sample_ops : list op :=
  [ OpAddUser 777 (Some "Anna") (Some "+70000000000") None;
    OpAddPurchase 1 1500%float;
    OpSpendPoints 1 50 (Some 1000%float);
    OpUpdateUserPoints 1 (-20) "correction";
    OpAddPurchaseByQr "001-c4c" 200%float ].

(** A ledger with one account whose balance is [100 + extra]. *)
Definition ledger_with_balance (extra : Z) : db :=
  run [OpAddUser 777 (Some "Anna") None None; OpUpdateUserPoints 1 extra "top-up"] empty_db.

(** ** LoyaltyDB: lookups and statistics *)

(** The dict [get_user_info] returns (registration_date left out). *)
Record user_info : Type := mkUserInfo {
  info_user_id : Z;
  info_name : option string;
  info_phone : option string;
  info_gender : option string;
  info_total_purchases : float;
  info_total_points : Z;
  info_current_points : Z;
  info_qr_code : option string
}.

Definition info_of (u : user) : user_info :=
  mkUserInfo (user_id u) (name u) (phone u) (gender u) (total_purchases u)
             (total_points u) (current_points u) (qr_code u).

(** [get_user_info]: WHERE telegram_id = ? AND is_active = 1 *)
Definition get_user_info (d : db) (tg : Z) : option user_info :=
  option_map info_of (select_user d (fun u => has_telegram_id tg u && is_active u)).

(** [get_user_by_id]: SELECT * FROM users WHERE user_id = ?, as a dict of
    all the columns. *)
Definition get_user_by_id (d : db) (uid : Z) : option user :=
  select_user d (has_user_id uid).

(** The dict [get_system_stats] returns. *)
Record system_stats : Type := mkStats {
  stats_total_users : Z;
  stats_total_sales : pynum;
  stats_total_points : Z;
  stats_avg_purchase : pynum
}.

Section Statistics.

(** SQLite's SUM and AVG over the REAL column of the selected rows; [None]
    is NULL (no rows). *)
Variable sqlite_sum_real : list float -> option float.
Variable sqlite_avg_real : list float -> option float.

(** [x or 0] for a REAL aggregate. *)
Definition real_or_0 (x : option float) : pynum :=
  match x with
  | Some f => if float_truthy f then PyFloat f else PyInt 0
  | None => PyInt 0
  end.

(** [get_system_stats]: the aggregates over the active accounts; SUM over
    the INTEGER column is the sum, and [NULL or 0] and [0 or 0] are both 0. *)
Definition get_system_stats (d : db) : system_stats :=
  let active := filter is_active (users d) in
  mkStats (Z.of_nat (List.length active))
          (real_or_0 (sqlite_sum_real (map total_purchases active)))
          (fold_right Z.add 0 (map current_points active))
          (real_or_0 (sqlite_avg_real (map total_purchases active))).

End Statistics.

(** ** The chat handlers *)

(** States of the conversations; [END] is ConversationHandler.END. *)
Inductive conv_state : Type :=
| PHONE | NAME | GENDER
| ADD_PURCHASE | SPEND_POINTS | CHECK_BALANCE
| ADMIN_MENU | ADMIN_ADD_USER | ADMIN_EDIT_USER
| END.

(** [context.user_data]: the four keys the handlers use; [None] is a
    missing key. *)
Record user_data : Type := mkUserData {
  ud_phone : option string;
  ud_name : option string;
  ud_points_to_spend : option Z;
  ud_user_id : option Z
}.

Definition empty_user_data : user_data := mkUserData None None None None.

(** The message the registration flow reads a phone number from. *)
Inductive message : Type :=
| MsgContact (phone_number : string)
| MsgText (text : string).

(** A text reply, by the message it is and the values it shows.  The
    picture of the code that [start] and [get_gender] try to send is left
    out. *)
Inductive reply : Type :=
| ReplyAdminGreeting
| ReplyAlreadyRegistered (nm : option string) (balance : Z) (code : option string)
| ReplyAskContact
| ReplyAskName
| ReplyAskGender (nm : string)
| ReplyRegistrationComplete (nm ph gd : option string) (bonus balance : Z) (code : string)
| ReplyPurchaseCancelled
| ReplyPurchaseRegistered (amt : float) (earned balance : Z) (available_discount : float)
| ReplyInvalidAmount
| ReplySpendCancelled
| ReplyInvalidPoints
| ReplyInsufficientPoints (balance : Z)
| ReplyAskPurchaseAmount
| ReplyPointsSpent (points : Z) (discount : pynum) (discount_amount final_amount amt : float)
                   (balance : Z)
| ReplySpendFailed
| ReplyAdminOnly
| ReplyAdminPanel
| ReplyAdminCancelled
| ReplyAdminInvalidFormat
| ReplyAdminUserNotFound (uid : Z)
| ReplyAdminPointsChanged (nm : option string) (added : bool) (points balance : Z)
| ReplyAdminPointsFailed
| ReplyAdminEditCancelled
| ReplyAdminEditInvalid
| ReplyAdminUserCard (u : user)
| ReplyAdminEditUnavailable
| ReplyCancelled (admin_keyboard : bool).

(** What a handler gives back: the state it returns ([None] when it
    returns nothing) with its replies, or the exception it lets through;
    then the database and the user data it leaves. *)
Definition handled : Type :=
  (result (option conv_state * list reply) * db * user_data)%type.

(** [needle in text] *)
Definition contains (needle text : string) : bool :=
  match index 0 needle text with
  | Some _ => true
  | None => false
  end.

(** [f"{n:+d}"] *)
Definition format_signed (n : Z) : string :=
  if 0 <=? n then ("+" ++ py_str n)%string else py_str n.

(** The float a number converts to in float arithmetic. *)
Definition float_of_pynum (x : pynum) : float :=
  match x with
  | PyInt n => Z2float n
  | PyFloat f => f
  end.

Definition cancel_text : string := "❌ Отмена".

Section Bot.

(** [float(text)] and [int(text)] on a string ([None] for ValueError),
    and [text.split()]. *)
Variable float_of_str : string -> option float.
Variable int_of_str : string -> option Z.
Variable py_split : string -> list string.

(** The telegram ids of the administrators. *)
Variable ADMINS : list Z.

Definition is_admin (sender : Z) : bool := existsb (Z.eqb sender) ADMINS.

(** [start] *)
Definition start (d : db) (ud : user_data) (sender : Z) : handled :=
  if is_admin sender then (Ok (Some END, [ReplyAdminGreeting]), d, ud)
  else
    match get_user_info d sender with
    | Some info =>
        (Ok (Some END, [ReplyAlreadyRegistered (info_name info) (info_current_points info)
                                               (info_qr_code info)]), d, ud)
    | None => (Ok (Some PHONE, [ReplyAskContact]), d, ud)
    end.

(** [get_phone] *)
Definition get_phone (d : db) (ud : user_data) (msg : message) : handled :=
  let phone_number := match msg with MsgContact p => p | MsgText t => t end in
  (Ok (Some NAME, [ReplyAskName]),
   d, mkUserData (Some phone_number) (ud_name ud) (ud_points_to_spend ud) (ud_user_id ud)).

(** [get_name] *)
Definition get_name (d : db) (ud : user_data) (text : string) : handled :=
  (Ok (Some GENDER, [ReplyAskGender text]),
   d, mkUserData (ud_phone ud) (Some text) (ud_points_to_spend ud) (ud_user_id ud)).

(** The gender stored for the text of the answer. *)
Definition gender_of_text (gender_text : string) : string :=
  if contains "Мужской" gender_text then "мужской"
  else if contains "Женский" gender_text then "женский"
  else gender_text.

(** [get_gender]: the account is created before the profile is read back,
    so the TypeError on a missing profile comes after the commit. *)
Definition get_gender (d : db) (ud : user_data) (sender : Z) (gender_text : string)
  : handled :=
  match add_user d sender (ud_name ud) (ud_phone ud) (Some (gender_of_text gender_text)) with
  | (Raise e, d') => (Raise e, d', ud)
  | (Ok (_, code), d') =>
      match get_user_info d' sender with
      | None => (Raise TypeError, d', ud)
      | Some info =>
          (Ok (Some END,
               [ReplyRegistrationComplete (info_name info) (info_phone info) (info_gender info)
                  LOYALTY_SETTINGS.welcome_bonus (info_current_points info) code]),
           d', ud)
      end
  end.

(** [add_purchase_handler]: only ValueError is caught. *)
Definition add_purchase_handler (d : db) (ud : user_data) (sender : Z) (text : string)
  : handled :=
  if String.eqb text cancel_text then (Ok (Some END, [ReplyPurchaseCancelled]), d, ud)
  else
    match float_of_str text with
    | None => (Ok (Some ADD_PURCHASE, [ReplyInvalidAmount]), d, ud)
    | Some amt =>
        if (amt <=? 0)%float then (Ok (Some ADD_PURCHASE, [ReplyInvalidAmount]), d, ud)
        else
          match get_user_info d sender with
          | None => (Raise TypeError, d, ud)
          | Some info =>
              match add_purchase d (info_user_id info) amt with
              | (Raise ValueError, d') =>
                  (Ok (Some ADD_PURCHASE, [ReplyInvalidAmount]), d', ud)
              | (Raise e, d') => (Raise e, d', ud)
              | (Ok (points_earned, new_balance), d') =>
                  match py_float_of_int new_balance with
                  | Raise e => (Raise e, d', ud)
                  | Ok f =>
                      (Ok (Some END,
                           [ReplyPurchaseRegistered amt points_earned new_balance
                              (f * LOYALTY_SETTINGS.discount_per_point)%float]),
                       d', ud)
                  end
              end
          end
    end.

(** [spend_points_handler] *)
Definition spend_points_handler (d : db) (ud : user_data) (sender : Z) (text : string)
  : handled :=
  if String.eqb text cancel_text then (Ok (Some END, [ReplySpendCancelled]), d, ud)
  else
    match int_of_str text with
    | None => (Ok (Some SPEND_POINTS, [ReplyInvalidPoints]), d, ud)
    | Some points_to_spend =>
        if points_to_spend <=? 0 then (Ok (Some SPEND_POINTS, [ReplyInvalidPoints]), d, ud)
        else
          match get_user_info d sender with
          | None => (Raise TypeError, d, ud)
          | Some info =>
              if info_current_points info <? points_to_spend
              then (Ok (Some SPEND_POINTS,
                        [ReplyInsufficientPoints (info_current_points info)]), d, ud)
              else (Ok (Some CHECK_BALANCE, [ReplyAskPurchaseAmount]), d,
                    mkUserData (ud_phone ud) (ud_name ud) (Some points_to_spend)
                               (Some (info_user_id info)))
          end
    end.

(** [calculate_discount_handler]: a missing user_id selects no row and a
    missing points_to_spend cannot be compared with the balance; both end
    in TypeError before anything is written. *)
Definition calculate_discount_handler (d : db) (ud : user_data) (text : string) : handled :=
  if String.eqb text cancel_text then (Ok (Some END, [ReplySpendCancelled]), d, ud)
  else
    match float_of_str text with
    | None => (Ok (Some CHECK_BALANCE, [ReplyInvalidAmount]), d, ud)
    | Some purchase_amount =>
        if (purchase_amount <=? 0)%float
        then (Ok (Some CHECK_BALANCE, [ReplyInvalidAmount]), d, ud)
        else
          match ud_user_id ud, ud_points_to_spend ud with
          | Some uid, Some points_to_spend =>
              match spend_points d uid points_to_spend (Some purchase_amount) with
              | (Raise ValueError, d') =>
                  (Ok (Some CHECK_BALANCE, [ReplyInvalidAmount]), d', ud)
              | (Raise e, d') => (Raise e, d', ud)
              | (Ok (true, new_balance, discount), d') =>
                  let discount_amount :=
                    (purchase_amount * float_of_pynum discount / Z2float 100)%float in
                  let final_amount := (purchase_amount - discount_amount)%float in
                  (Ok (Some END,
                       [ReplyPointsSpent points_to_spend discount discount_amount
                                         final_amount purchase_amount new_balance]),
                   d', ud)
              | (Ok (false, _, _), d') => (Ok (Some END, [ReplySpendFailed]), d', ud)
              end
          | _, _ => (Raise TypeError, d, ud)
          end
    end.

(** [admin_panel] *)
Definition admin_panel (d : db) (ud : user_data) (sender : Z) : handled :=
  if is_admin sender then (Ok (Some ADMIN_MENU, [ReplyAdminPanel]), d, ud)
  else (Ok (None, [ReplyAdminOnly]), d, ud).

(** [admin_add_points_handler] *)
Definition admin_add_points_handler (d : db) (ud : user_data) (text : string) : handled :=
  if String.eqb text cancel_text then (Ok (Some ADMIN_MENU, [ReplyAdminCancelled]), d, ud)
  else
    match py_split text with
    | [first; second] =>
        match int_of_str first with
        | None => (Ok (Some ADMIN_ADD_USER, [ReplyAdminInvalidFormat]), d, ud)
        | Some uid =>
            match int_of_str second with
            | None => (Ok (Some ADMIN_ADD_USER, [ReplyAdminInvalidFormat]), d, ud)
            | Some points =>
                match get_user_by_id d uid with
                | None => (Ok (Some ADMIN_ADD_USER, [ReplyAdminUserNotFound uid]), d, ud)
                | Some info =>
                    match update_user_points d uid points
                            ("Изменение баланса администратором: "
                               ++ format_signed points)%string with
                    | (Raise e, d') => (Raise e, d', ud)
                    | (Ok true, d') =>
                        (Ok (Some ADMIN_MENU,
                             [ReplyAdminPointsChanged (name info) (0 <? points)
                                (Z.abs points) (current_points info + points)]),
                         d', ud)
                    | (Ok false, d') => (Ok (Some ADMIN_MENU, [ReplyAdminPointsFailed]), d', ud)
                    end
                end
            end
        end
    | _ => (Ok (Some ADMIN_ADD_USER, [ReplyAdminInvalidFormat]), d, ud)
    end.

(** [admin_edit_user_handler] *)
Definition admin_edit_user_handler (d : db) (ud : user_data) (text : string) : handled :=
  if String.eqb text cancel_text then (Ok (Some ADMIN_MENU, [ReplyAdminEditCancelled]), d, ud)
  else
    match int_of_str text with
    | None => (Ok (Some ADMIN_EDIT_USER, [ReplyAdminEditInvalid]), d, ud)
    | Some uid =>
        match get_user_by_id d uid with
        | None => (Ok (Some ADMIN_EDIT_USER, [ReplyAdminUserNotFound uid]), d, ud)
        | Some info =>
            (Ok (Some ADMIN_MENU, [ReplyAdminUserCard info; ReplyAdminEditUnavailable]), d, ud)
        end
    end.

(** [cancel_handler] *)
Definition cancel_handler (d : db) (ud : user_data) (sender : Z) : handled :=
  (Ok (Some END, [ReplyCancelled (is_admin sender)]), d, ud).

End Bot.

(** ** Vocabulary of the account properties *)

(** What identifies an account and describes its owner: the columns no
    call is meant to change. *)
Record account : Type := mkAccount {
  acc_user_id : Z;
  acc_telegram_id : Z;
  acc_name : option string;
  acc_phone : option string;
  acc_gender : option string;
  acc_qr_code : option string;
  acc_is_active : bool
}.

(** The identity of a stored row. *)
Definition account_identity (u : user) : account :=
  mkAccount (user_id u) (telegram_id u) (name u) (phone u) (gender u)
            (qr_code u) (is_active u).

(** Ids and telegram ids are pairwise distinct and every account is active. *)
Definition accounts_ok (d : db) : Prop :=
  NoDup (map user_id (users d)) /\
  NoDup (map telegram_id (users d)) /\
  forallb is_active (users d) = true.

(** A float that is not below zero: +0.0, a positive finite value, the
    positive infinity (or NaN, which is neither). *)
Definition not_negative (x : spec_float) : bool :=
  match x with
  | S754_zero s => negb s
  | S754_finite s _ _ => negb s
  | S754_infinity s => negb s
  | S754_nan => true
  end.

(** The sum of points_change over all the transactions. *)
Definition all_points (d : db) : Z :=
  fold_right Z.add 0 (map points_change (transactions d)).

(** The answer is the "ok" one. *)
Definition is_ok (r : response) : bool :=
  match r with
  | RespOk _ _ _ => true
  | _ => false
  end.

(** ** Calls of the entry points *)

(** A call of a handler or of the webhook, with the user data the call
    finds and what the update carries. *)
Inductive entry : Type :=
| CallStart (ud : user_data) (sender : Z)
| CallGetPhone (ud : user_data) (msg : message)
| CallGetName (ud : user_data) (text : string)
| CallGetGender (ud : user_data) (sender : Z) (text : string)
| CallAddPurchase (ud : user_data) (sender : Z) (text : string)
| CallSpendPoints (ud : user_data) (sender : Z) (text : string)
| CallCalculateDiscount (ud : user_data) (text : string)
| CallAdminPanel (ud : user_data) (sender : Z)
| CallAdminAddPoints (ud : user_data) (text : string)
| CallAdminEditUser (ud : user_data) (text : string)
| CallCancel (ud : user_data) (sender : Z)
| CallWebhook (data : json).

(** The database a handler leaves, whatever it returns or raises. *)
Definition db_after (h : handled) : db := snd (fst h).

Section Entries.

Variable float_of_str : string -> option float.
Variable int_of_str : string -> option Z.
Variable py_split : string -> list string.
Variable ADMINS : list Z.
Variable sqlite_real_text : float -> string.

Definition serve (d : db) (c : entry) : db :=
  match c with
  | CallStart ud sender => db_after (start ADMINS d ud sender)
  | CallGetPhone ud msg => db_after (get_phone d ud msg)
  | CallGetName ud text => db_after (get_name d ud text)
  | CallGetGender ud sender text => db_after (get_gender d ud sender text)
  | CallAddPurchase ud sender text =>
      db_after (add_purchase_handler float_of_str d ud sender text)
  | CallSpendPoints ud sender text =>
      db_after (spend_points_handler int_of_str d ud sender text)
  | CallCalculateDiscount ud text =>
      db_after (calculate_discount_handler float_of_str d ud text)
  | CallAdminPanel ud sender => db_after (admin_panel ADMINS d ud sender)
  | CallAdminAddPoints ud text =>
      db_after (admin_add_points_handler int_of_str py_split d ud text)
  | CallAdminEditUser ud text => db_after (admin_edit_user_handler int_of_str d ud text)
  | CallCancel ud sender => db_after (cancel_handler ADMINS d ud sender)
  | CallWebhook data => snd (evotor_webhook float_of_str sqlite_real_text d data)
  end.

Definition serve_all (calls : list entry) (d : db) : db := fold_left serve calls d.

End Entries.

(** ** Sample conversations *)

(** The values of Python's [float()], [int()] and [split()] on the texts
    the sample conversations use. *)
Definition sample_float_of_str (s : string) : option float :=
  if String.eqb s "10" then Some 10%float
  else if String.eqb s "1500" then Some 1500%float
  else None.

Definition sample_int_of_str (s : string) : option Z :=
  if String.eqb s "1" then Some 1
  else if String.eqb s "5900" then Some 5900
  else if String.eqb s "6000" then Some 6000
  else if String.eqb s "-250" then Some (-250)
  else None.

Definition sample_split (s : string) : list string :=
  if String.eqb s "1 5900" then ["1"; "5900"]
  else if String.eqb s "1 -250" then ["1"; "-250"]
  else [s].

(** One customer registers in the chat; the administrator tops the
    account up. *)
Definition sample_calls : list entry :=
  [ CallGetGender (mkUserData (Some "+70000000000") (Some "Anna") None None) 777 "👩 Женский";
    CallAdminAddPoints empty_user_data "1 5900" ].

(** ** Facts about binary64 rounding *)

Module FloatFacts.

Lemma digits2_pos_upper (p : positive) : Zpos p < 2 ^ Zpos (digits2_pos p).
Proof.
  induction p as [p IH | p IH |]; simpl digits2_pos;
    rewrite ?Pos2Z.inj_succ, ?Z.pow_succ_r by lia; lia.
Qed.

Lemma digits2_pos_lower (p : positive) : 2 ^ (Zpos (digits2_pos p) - 1) <= Zpos p.
Proof.
  induction p as [p IH | p IH |]; simpl digits2_pos.
  - rewrite Pos2Z.inj_succ.
    replace (Z.succ (Zpos (digits2_pos p)) - 1)
      with (Z.succ (Zpos (digits2_pos p) - 1)) by lia.
    rewrite Z.pow_succ_r by lia. lia.
  - rewrite Pos2Z.inj_succ.
    replace (Z.succ (Zpos (digits2_pos p)) - 1)
      with (Z.succ (Zpos (digits2_pos p) - 1)) by lia.
    rewrite Z.pow_succ_r by lia. lia.
  - simpl. lia.
Qed.

Lemma Zdigits2_le (m k : Z) : 0 <= k -> 0 <= m < 2 ^ k -> Zdigits2 m <= k.
Proof.
  intros Hk [Hm0 Hm]. destruct m as [| p | p]; simpl; try lia.
  pose proof (digits2_pos_lower p) as Hl.
  destruct (Z_le_gt_dec (Zpos (digits2_pos p)) k) as [|Hgt]; [assumption|].
  exfalso.
  assert (2 ^ k <= 2 ^ (Zpos (digits2_pos p) - 1)) by (apply Z.pow_le_mono_r; lia).
  lia.
Qed.

Lemma Zdigits2_upper (m : Z) : 0 <= m -> m < 2 ^ Zdigits2 m.
Proof.
  destruct m as [| p | p]; simpl; intros; try lia. apply digits2_pos_upper.
Qed.

Lemma Zdigits2_nonneg (m : Z) : 0 <= Zdigits2 m.
Proof. destruct m; simpl; lia. Qed.

Lemma shr_1_m (mrs : shr_record) :
  0 <= shr_m mrs -> shr_m (shr_1 mrs) = Z.div2 (shr_m mrs).
Proof.
  destruct mrs as [m r s]; simpl.
  destruct m as [| [p | p |] | p]; simpl; intros; try reflexivity; lia.
Qed.

Lemma iter_shr_1_m (n : positive) : forall mrs,
  0 <= shr_m mrs ->
  shr_m (SpecFloat.iter_pos shr_1 n mrs) = Z.shiftr (shr_m mrs) (Zpos n).
Proof.
  induction n as [n IH | n IH |]; intros mrs Hm; simpl SpecFloat.iter_pos.
  - assert (H1 : 0 <= shr_m (shr_1 mrs)).
    { rewrite shr_1_m by assumption. rewrite Z.div2_nonneg. assumption. }
    assert (H2 : 0 <= shr_m (SpecFloat.iter_pos shr_1 n (shr_1 mrs))).
    { rewrite IH by assumption. apply Z.shiftr_nonneg. assumption. }
    rewrite IH by assumption. rewrite IH by assumption.
    rewrite shr_1_m by assumption.
    rewrite Z.div2_spec. rewrite !Z.shiftr_shiftr by lia.
    f_equal. lia.
  - assert (H2 : 0 <= shr_m (SpecFloat.iter_pos shr_1 n mrs)).
    { rewrite IH by assumption. apply Z.shiftr_nonneg. assumption. }
    rewrite IH by assumption. rewrite IH by assumption.
    rewrite !Z.shiftr_shiftr by lia. f_equal. lia.
  - rewrite shr_1_m by assumption. apply Z.div2_spec.
Qed.

(** What [shr_fexp] leaves of a mantissa: at most 53 bits, at the larger
    of the two exponents. *)
Lemma shr_fexp_bounds (m e : Z) (l : location) :
  0 <= m ->
  0 <= shr_m (fst (shr_fexp prec emax m e l)) < 2 ^ 53 /\
  snd (shr_fexp prec emax m e l) = Z.max e (fexp prec emax (Zdigits2 m + e)).
Proof.
  intros Hm. unfold shr_fexp, shr.
  assert (Hrec : shr_m (shr_record_of_loc m l) = m) by (destruct l as [| []]; reflexivity).
  pose proof (Zdigits2_upper m Hm) as Hu.
  pose proof (Zdigits2_nonneg m) as Hd.
  assert (Hsmall : fexp prec emax (Zdigits2 m + e) - e <= 0 -> m < 2 ^ 53).
  { intros Hle. eapply Z.lt_le_trans; [exact Hu|]. apply Z.pow_le_mono_r; [lia|].
    unfold fexp, SpecFloat.emin, prec, emax in Hle. lia. }
  destruct (fexp prec emax (Zdigits2 m + e) - e) as [| n | n] eqn:Hn; simpl fst; simpl snd.
  - rewrite Hrec. split; [split; [lia | apply Hsmall; lia] | lia].
  - assert (H0 : 0 <= shr_m (shr_record_of_loc m l)) by (rewrite Hrec; assumption).
    rewrite (iter_shr_1_m n _ H0), Hrec, Z.shiftr_div_pow2 by lia.
    assert (Hpow : 0 < 2 ^ Zpos n) by (apply Z.pow_pos_nonneg; lia).
    split; [split|lia].
    + apply Z.div_pos; lia.
    + apply Z.div_lt_upper_bound; [lia|].
      rewrite <- Z.pow_add_r by lia.
      eapply Z.lt_le_trans; [exact Hu|]. apply Z.pow_le_mono_r; [lia|].
      unfold fexp, SpecFloat.emin, prec, emax in Hn. lia.
  - rewrite Hrec. split; [split; [lia | apply Hsmall; lia] | lia].
Qed.

Lemma round_nearest_even_bounds (m : Z) (l : location) :
  m <= round_nearest_even m l <= m + 1.
Proof.
  destruct l as [| []]; simpl; try lia. destruct (Z.even m); lia.
Qed.

(** Rounding a mantissa of moderate size does not overflow. *)
Lemma binary_round_aux_finite (sx : bool) (mx ex : Z) (lx : location) :
  0 <= mx -> Zdigits2 mx + ex <= 1023 -> ex <= 970 ->
  binary_round_aux prec emax sx mx ex lx = S754_zero sx \/
  exists m e, binary_round_aux prec emax sx mx ex lx = S754_finite sx m e.
Proof.
  intros Hm Hd He. unfold binary_round_aux.
  pose proof (shr_fexp_bounds mx ex lx Hm) as [[H1 H1'] E1].
  destruct (shr_fexp prec emax mx ex lx) as [mrs' e'] eqn:S1.
  simpl fst in *; simpl snd in *.
  set (m2 := round_nearest_even (shr_m mrs') (loc_of_shr_record mrs')).
  pose proof (round_nearest_even_bounds (shr_m mrs') (loc_of_shr_record mrs')) as Hr.
  fold m2 in Hr.
  assert (Hm2 : 0 <= m2) by lia.
  pose proof (shr_fexp_bounds m2 e' loc_Exact Hm2) as [[H2 _] E2].
  destruct (shr_fexp prec emax m2 e' loc_Exact) as [mrs'' e''] eqn:S2.
  simpl fst in *; simpl snd in *.
  assert (Hd2 : Zdigits2 m2 <= 54).
  { apply Zdigits2_le; [lia|]. change (2 ^ 54) with (2 * 2 ^ 53). lia. }
  assert (He'' : e'' <= 971).
  { pose proof (Zdigits2_nonneg mx). pose proof (Zdigits2_nonneg m2).
    unfold fexp, SpecFloat.emin, prec, emax in *. lia. }
  destruct (shr_m mrs'') as [| p | p]; [left; reflexivity | right | lia].
  replace (e'' <=? emax - prec) with true
    by (symmetry; apply Z.leb_le; unfold prec, emax; lia).
  eauto.
Qed.

(** The mantissa of a binary64 value has at most 53 bits and its exponent
    is at most 971. *)
Lemma valid_binary_bounds (s : bool) (m : positive) (e : Z) :
  valid_binary (S754_finite s m e) = true ->
  Zpos (digits2_pos m) <= 53 /\ e <= 971.
Proof.
  unfold valid_binary. simpl. unfold bounded, canonical_mantissa, fexp, SpecFloat.emin, prec, emax.
  intros H. apply andb_prop in H as [H1 H2].
  apply Z.eqb_eq in H1. apply Z.leb_le in H2. lia.
Qed.

(** The product of two finite values, one of them with an exponent of at
    most -54, is finite or zero and has the sign of the product. *)
Lemma SFmul_finite (sx sy : bool) (mx my : positive) (ex ey : Z) :
  Zpos (digits2_pos mx) <= 53 -> Zpos (digits2_pos my) <= 53 ->
  ex + ey <= 917 ->
  SFmul prec emax (S754_finite sx mx ex) (S754_finite sy my ey) = S754_zero (xorb sx sy) \/
  exists m e, SFmul prec emax (S754_finite sx mx ex) (S754_finite sy my ey)
              = S754_finite (xorb sx sy) m e.
Proof.
  intros Hx Hy He. unfold SFmul.
  apply binary_round_aux_finite; [lia | | lia].
  assert (Zdigits2 (Zpos (mx * my)) <= 106); [|lia].
  apply Zdigits2_le; [lia|].
  pose proof (digits2_pos_upper mx). pose proof (digits2_pos_upper my).
  assert (2 ^ Zpos (digits2_pos mx) <= 2 ^ 53) by (apply Z.pow_le_mono_r; lia).
  assert (2 ^ Zpos (digits2_pos my) <= 2 ^ 53) by (apply Z.pow_le_mono_r; lia).
  change (2 ^ 106) with (2 ^ 53 * 2 ^ 53). rewrite Pos2Z.inj_mul. nia.
Qed.

(** [int(f)] is the floor of the value of a non-negative float. *)
Lemma shiftl_floor (m : positive) (e : Z) :
  Z.shiftl (Zpos m) e = Qfloor (inject_Z (Zpos m) * (2 ^ e)%Q).
Proof.
  destruct (Z_le_gt_dec 0 e) as [He | He].
  - rewrite Z.shiftl_mul_pow2 by assumption.
    rewrite <- (Qfloor_Z (Zpos m * 2 ^ e)).
    apply Qfloor_comp. rewrite inject_Z_mult.
    rewrite Zpower_Qpower by assumption. reflexivity.
  - assert (Hk : 0 < - e) by lia.
    remember (- e) as k eqn:Ek. replace e with (- k) by lia. clear Ek He.
    rewrite Z.shiftl_opp_r, Z.shiftr_div_pow2 by lia.
    rewrite Zdiv_Qdiv. apply Qfloor_comp.
    rewrite Zpower_Qpower by lia. rewrite Qpower_opp. reflexivity.
Qed.

Lemma py_int_floor (f : float) (pe : Z) :
  py_int f = Ok pe -> (0 <= float_value f)%Q -> pe = Qfloor (float_value f).
Proof.
  unfold py_int, float_value.
  destruct (Prim2SF f) as [s | s | | s m e]; try discriminate.
  - intros [= <-] _. reflexivity.
  - intros [= <-] Hpos. destruct s; simpl cond_Zopp in *.
    + exfalso. 
      assert (0 < 2 ^ e)%Q by (apply Qpower_0_lt; reflexivity).
      assert (inject_Z (Z.neg m) < 0)%Q by reflexivity.
      assert (inject_Z (Z.neg m) * 2 ^ e < 0)%Q; [|apply (Qlt_not_le _ _ H1 Hpos)].
      rewrite Qmult_comm. rewrite <- (Qmult_0_r (2 ^ e)).
      apply Qmult_lt_l; assumption.
    + apply shiftl_floor.
Qed.

Lemma float_value_nonneg (f : float) :
  (exists s, Prim2SF f = S754_zero s) \/ (exists m e, Prim2SF f = S754_finite false m e) ->
  (0 <= float_value f)%Q.
Proof.
  unfold float_value. intros [[s ->] | [m [e ->]]]; [apply Qle_refl|].
  simpl cond_Zopp. apply Qmult_le_0_compat; [discriminate|].
  apply Qpower_0_le. discriminate.
Qed.

(** The points earned on a positive finite amount: [int] of the product
    with [points_per_purchase] is defined, it is the floor of the product,
    and it is not negative. *)
Lemma earned_points_defined (amt : float) (m : positive) (e : Z) :
  Prim2SF amt = S754_finite false m e ->
  py_int (amt * LOYALTY_SETTINGS.points_per_purchase)%float
  = Ok (Qfloor (float_value (amt * LOYALTY_SETTINGS.points_per_purchase)%float))
  /\ 0 <= Qfloor (float_value (amt * LOYALTY_SETTINGS.points_per_purchase)%float).
Proof.
  intros Hamt.
  pose proof (Prim2SF_valid amt) as Hv. rewrite Hamt in Hv.
  apply valid_binary_bounds in Hv as [Hd He].
  assert (Hprod :
    (exists s, Prim2SF (amt * LOYALTY_SETTINGS.points_per_purchase)%float = S754_zero s) \/
    (exists m' e', Prim2SF (amt * LOYALTY_SETTINGS.points_per_purchase)%float
                   = S754_finite false m' e')).
  { rewrite mul_spec, Hamt.
    change (Prim2SF LOYALTY_SETTINGS.points_per_purchase)
      with (S754_finite false 7205759403792794 (-57)).
    destruct (SFmul_finite false false m 7205759403792794 e (-57)) as [H | H];
      [lia | vm_compute; discriminate | lia | left; eauto | right; exact H]. }
  pose proof (float_value_nonneg _ Hprod) as Hpos.
  assert (Hok : exists pe, py_int (amt * LOYALTY_SETTINGS.points_per_purchase)%float = Ok pe).
  { unfold py_int. destruct Hprod as [[s ->] | [m' [e' ->]]]; eauto. }
  destruct Hok as [pe Hpe]. split.
  - rewrite Hpe. f_equal. apply py_int_floor; assumption.
  - change 0 with (Qfloor 0). apply Qfloor_resp_le. assumption.
Qed.

Lemma iter_xO_pow2 (m d : positive) : Zpos (Pos.iter xO m d) = Zpos m * 2 ^ Zpos d.
Proof.
  induction d as [| d IH] using Pos.peano_ind.
  - simpl. lia.
  - rewrite Pos.iter_succ, Pos2Z.inj_xO, IH, Pos2Z.inj_succ, Z.pow_succ_r by lia. lia.
Qed.

Lemma binary_round_finite (s : bool) (m : positive) :
  Zpos m < 2 ^ 1023 ->
  binary_round prec emax s m 0 = S754_zero s \/
  exists m' e', binary_round prec emax s m 0 = S754_finite s m' e'.
Proof.
  intros Hm. unfold binary_round.
  assert (Hd : Zpos (digits2_pos m) <= 1023).
  { apply (Zdigits2_le (Zpos m)); lia. }
  pose proof (digits2_pos_upper m) as Hu.
  unfold shl_align.
  destruct (fexp prec emax (Zpos (digits2_pos m) + 0) - 0) as [| d | d] eqn:Hf;
    try (apply binary_round_aux_finite; simpl Zdigits2; lia).
  apply binary_round_aux_finite; [lia | | unfold fexp, SpecFloat.emin, prec, emax in *; lia].
  assert (Zdigits2 (Zpos (Pos.iter xO m d)) <= Zpos (digits2_pos m) + Zpos d).
  { apply Zdigits2_le; [lia|]. rewrite iter_xO_pow2, Z.pow_add_r by lia.
    assert (0 < 2 ^ Zpos d) by (apply Z.pow_pos_nonneg; lia). nia. }
  unfold fexp, SpecFloat.emin, prec, emax in *. lia.
Qed.

(** An int below [2 ^ 1023] in magnitude converts to a float. *)
Lemma py_float_of_int_defined (n : Z) :
  Z.abs n < 2 ^ 1023 -> py_float_of_int n = Ok (Z2float n).
Proof.
  intros Hn. unfold py_float_of_int, binary_normalize.
  destruct n as [| m | m]; [reflexivity | |].
  - destruct (binary_round_finite false m) as [-> | [m' [e' ->]]]; [lia | reflexivity ..].
  - destruct (binary_round_finite true m) as [-> | [m' [e' ->]]]; [lia | reflexivity ..].
Qed.

End FloatFacts.

(** ** Facts about the public code *)

Module CodeFacts.

(** The decimal digits of a non-negative int: a non-empty digit string
    that reads back as the int. *)
Lemma py_str_digits (n : Z) :
  0 <= n ->
  exists d, d <> Decimal.Nil /\ py_str n = NilEmpty.string_of_uint d /\ Z.of_uint d = n.
Proof.
  intros Hn. unfold py_str. destruct n as [| p | p]; [| | lia].
  - exists (Decimal.D0 Decimal.Nil). repeat split. discriminate.
  - exists (Pos.to_uint p).
    pose proof (DecimalPos.Unsigned.to_uint_nonnil p) as Hnil.
    repeat split; [assumption | |].
    + simpl. unfold NilZero.string_of_uint. destruct (Pos.to_uint p); congruence.
    + unfold Z.of_uint. rewrite DecimalPos.Unsigned.of_to. reflexivity.
Qed.

Lemma of_uint_lead_zeros (k : nat) (d : Decimal.uint) :
  Z.of_uint (lead_zeros k d) = Z.of_uint d.
Proof. induction k as [| k IH]; [reflexivity | exact IH]. Qed.

Lemma string_of_lead_zeros (k : nat) (d : Decimal.uint) :
  NilEmpty.string_of_uint (lead_zeros k d) = (zeros k ++ NilEmpty.string_of_uint d)%string.
Proof. induction k as [| k IH]; simpl; [reflexivity | now rewrite IH]. Qed.

(** Zero-filling a digit string only puts zeros in front of it. *)
Lemma zfill_digits (d : Decimal.uint) (width : nat) :
  d <> Decimal.Nil ->
  exists k, zfill (NilEmpty.string_of_uint d) width
            = NilEmpty.string_of_uint (lead_zeros k d).
Proof.
  intros Hd. unfold zfill.
  destruct (width <=? String.length (NilEmpty.string_of_uint d))%nat.
  - exists O. reflexivity.
  - exists (width - String.length (NilEmpty.string_of_uint d))%nat.
    rewrite string_of_lead_zeros.
    destruct d; simpl; try reflexivity. congruence.
Qed.

Lemma zfill_py_str_inj (a b : Z) (width : nat) :
  0 <= a -> 0 <= b -> zfill (py_str a) width = zfill (py_str b) width -> a = b.
Proof.
  intros Ha Hb H.
  destruct (py_str_digits a Ha) as [da [Na [Sa Va]]].
  destruct (py_str_digits b Hb) as [db [Nb [Sb Vb]]].
  rewrite Sa, Sb in H.
  destruct (zfill_digits da width Na) as [ka Ea].
  destruct (zfill_digits db width Nb) as [kb Eb].
  rewrite Ea, Eb in H.
  assert (E : lead_zeros ka da = lead_zeros kb db).
  { pose proof (NilEmpty.usu (lead_zeros ka da)) as U. rewrite H in U.
    rewrite NilEmpty.usu in U. congruence. }
  rewrite <- Va, <- Vb, <- (of_uint_lead_zeros ka da), <- (of_uint_lead_zeros kb db).
  now rewrite E.
Qed.

Lemma le_bytes_length (x : Z) (n : nat) : List.length (MD5.le_bytes x n) = n.
Proof. unfold MD5.le_bytes. now rewrite length_map, length_seq. Qed.

Lemma hex_length (bytes : list Z) :
  String.length (MD5.hex bytes) = (2 * List.length bytes)%nat.
Proof. induction bytes as [| b rest IH]; simpl; [reflexivity | rewrite IH; lia]. Qed.

(** An MD5 digest prints as 32 hexadecimal digits. *)
Lemma hexdigest_length (msg : list Z) : String.length (MD5.hexdigest msg) = 32%nat.
Proof.
  unfold MD5.hexdigest, MD5.digest.
  destruct (fold_left _ _ _) as [[[a b] c] d].
  rewrite hex_length, !length_app, !le_bytes_length. reflexivity.
Qed.

Lemma substring_0_length (n : nat) : forall s,
  (n <= String.length s)%nat -> String.length (substring 0 n s) = n.
Proof.
  induction n as [| n IH]; intros s Hs.
  - destruct s; reflexivity.
  - destruct s as [| c s]; simpl in *; [lia|]. rewrite IH by lia. reflexivity.
Qed.

Lemma append_length (s t : string) :
  String.length (s ++ t)%string = (String.length s + String.length t)%nat.
Proof. induction s as [| c s IH]; simpl; [reflexivity | now rewrite IH]. Qed.

(** Two strings with equal-length tails agree on their heads. *)
Lemma append_inj_head (a b s t : string) :
  (a ++ s = b ++ t)%string -> String.length s = String.length t -> a = b.
Proof.
  revert b. induction a as [| c a IH]; intros [| c' b] H L; simpl in H.
  - reflexivity.
  - apply (f_equal String.length) in H. simpl in H. rewrite append_length in H. lia.
  - apply (f_equal String.length) in H. simpl in H. rewrite append_length in H. lia.
  - injection H as -> H. f_equal. now apply IH.
Qed.

(** The code determines the account id. *)
Lemma generate_qr_code_inj (a b : Z) :
  0 <= a -> 0 <= b -> generate_qr_code a = generate_qr_code b -> a = b.
Proof.
  intros Ha Hb H. unfold generate_qr_code in H.
  apply append_inj_head in H.
  - exact (zfill_py_str_inj a b 3 Ha Hb H).
  - simpl. rewrite !substring_0_length; [reflexivity | |]; rewrite hexdigest_length; lia.
Qed.

End CodeFacts.

(** ** Facts about the ledger *)

Module LedgerFacts.

Lemma fold_max_ge (a : Z) (l : list Z) :
  a <= fold_right Z.max a l /\ forall x, In x l -> x <= fold_right Z.max a l.
Proof.
  induction l as [| y l [IHa IHl]]; simpl.
  - split; [lia | intros x []].
  - split; [lia|]. intros x [-> | Hx]; [lia | specialize (IHl x Hx); lia].
Qed.

Lemma next_user_id_fresh (d : db) :
  users_seq d < next_user_id d /\
  forall u, In u (users d) -> user_id u < next_user_id d.
Proof.
  unfold next_user_id.
  destruct (fold_max_ge (users_seq d) (map user_id (users d))) as [Ha Hl].
  split; [lia|]. intros u Hu.
  specialize (Hl (user_id u) (in_map user_id _ _ Hu)). lia.
Qed.

Lemma user_exists_iff (d : db) (uid : Z) :
  user_exists d uid = true <-> exists u, In u (users d) /\ user_id u = uid.
Proof.
  unfold user_exists. rewrite existsb_exists. unfold has_user_id.
  split; intros [u [Hu E]]; exists u; (split; [assumption|]);
    [apply Z.eqb_eq | apply Z.eqb_eq]; assumption.
Qed.

Lemma select_user_exists (d : db) (uid : Z) (u : user) :
  select_user d (has_user_id uid) = Some u -> In u (users d) /\ user_id u = uid.
Proof.
  unfold select_user. intros H. apply find_some in H as [Hin E].
  split; [assumption | now apply Z.eqb_eq].
Qed.

Lemma select_user_none (d : db) (uid : Z) :
  select_user d (has_user_id uid) = None -> user_exists d uid = false.
Proof.
  unfold select_user, user_exists. intros H.
  destruct (existsb (has_user_id uid) (users d)) eqn:E; [|reflexivity].
  apply existsb_exists in E as [u [Hu Eu]].
  now rewrite (find_none _ _ H u Hu) in Eu.
Qed.

Lemma user_exists_select (d : db) (uid : Z) :
  user_exists d uid = true -> exists u, select_user d (has_user_id uid) = Some u.
Proof.
  intros H. destruct (select_user d (has_user_id uid)) as [u |] eqn:E; [eauto|].
  apply select_user_none in E. congruence.
Qed.

(** Rows after an UPDATE. *)
Lemma In_update_users (d : db) (c : user -> bool) (f : user -> user) (u' : user) :
  In u' (users (update_users d c f)) <->
  exists u, In u (users d) /\ u' = (if c u then f u else u).
Proof.
  simpl. rewrite in_map_iff. split; intros [u [H1 H2]]; exists u; split; auto.
Qed.

Lemma find_append (c : user -> bool) (l l' : list user) :
  find c (l ++ l') = match find c l with Some u => Some u | None => find c l' end.
Proof.
  induction l as [| u l IH]; simpl; [reflexivity|]. destruct (c u); [reflexivity | exact IH].
Qed.

Lemma find_map_same (c : user -> bool) (g : user -> user) (l : list user) :
  (forall u, c (g u) = c u) -> find c (map g l) = option_map g (find c l).
Proof.
  intros Hc. induction l as [| u l IH]; simpl; [reflexivity|].
  rewrite Hc. destruct (c u); [reflexivity | exact IH].
Qed.

(** Reading a row back by id after an UPDATE that keeps the ids. *)
Lemma select_after_update (d : db) (c : user -> bool) (f : user -> user) (uid : Z) :
  keeps_identity f ->
  select_user (update_users d c f) (has_user_id uid)
  = option_map (fun u => if c u then f u else u) (select_user d (has_user_id uid)).
Proof.
  intros Hf. unfold select_user. simpl. apply find_map_same.
  intros u. unfold has_user_id. destruct (c u); [|reflexivity].
  now destruct (Hf u) as [-> _].
Qed.

Lemma user_exists_update (d : db) (c : user -> bool) (f : user -> user) (uid : Z) :
  keeps_identity f -> user_exists (update_users d c f) uid = user_exists d uid.
Proof.
  intros Hf. unfold user_exists. simpl.
  induction (users d) as [| u l IH]; simpl; [reflexivity|].
  rewrite IH. f_equal. unfold has_user_id.
  destruct (c u); [|reflexivity]. now destruct (Hf u) as [-> _].
Qed.

Lemma keeps_identity_credit (amt : float) (pts : Z) : keeps_identity (credit_purchase amt pts).
Proof. intros u. repeat split. Qed.

Lemma keeps_identity_adjust (cur tot : Z) : keeps_identity (adjust_points cur tot).
Proof. intros u. repeat split. Qed.

Lemma keeps_identity_debit (pts : Z) : keeps_identity (debit_points pts).
Proof. intros u. repeat split. Qed.

Create HintDb ledger.
#[local] Hint Resolve keeps_identity_credit keeps_identity_adjust keeps_identity_debit : ledger.

(** The sum of an account's transactions after an INSERT. *)
Lemma points_sum_insert (d : db) (uid' uid : Z) (ty : string) (amt : option float)
    (pts : Z) (descr : description) :
  points_sum (insert_transaction d uid' ty amt pts descr) uid
  = points_sum d uid + (if uid' =? uid then pts else 0).
Proof.
  unfold points_sum, transactions_of. simpl.
  rewrite filter_app, map_app, fold_right_app. simpl.
  destruct (uid' =? uid); simpl.
  - induction (filter _ (transactions d)) as [| t l IH]; simpl; [lia | rewrite IH; lia].
  - lia.
Qed.

Lemma bonus_count_insert (d : db) (uid' uid : Z) (ty : string) (amt : option float)
    (pts : Z) (descr : description) :
  bonus_count (insert_transaction d uid' ty amt pts descr) uid
  = (bonus_count d uid
     + (if ((uid' =? uid)%Z && String.eqb ty "bonus")%bool then 1 else 0))%nat.
Proof.
  unfold bonus_count, transactions_of. simpl.
  rewrite !filter_app, length_app. simpl.
  destruct (uid' =? uid); simpl; [|reflexivity].
  destruct (String.eqb ty "bonus"); reflexivity.
Qed.

Lemma points_sum_no_transactions (d : db) (uid : Z) :
  (forall t, In t (transactions d) -> tx_user_id t <> uid) -> points_sum d uid = 0.
Proof.
  intros H. unfold points_sum, transactions_of.
  replace (filter _ (transactions d)) with (@nil transaction); [reflexivity|].
  symmetry. induction (transactions d) as [| t l IH]; simpl; [reflexivity|].
  destruct (tx_user_id t =? uid) eqn:E.
  - apply Z.eqb_eq in E. exfalso. apply (H t); [now left | assumption].
  - apply IH. intros t' Ht'. apply H. now right.
Qed.


(** *** The three shapes of a call's effect *)

Lemma registered_users (d : db) (tg : Z) (nm ph gd : option string) :
  users (registered d tg nm ph gd)
  = users d ++ [mkUser (next_user_id d) tg nm ph gd 0%float 0
                       LOYALTY_SETTINGS.welcome_bonus
                       (Some (generate_qr_code (next_user_id d))) true].
Proof.
  unfold registered. simpl. rewrite map_app. simpl.
  unfold has_user_id at 2. simpl. rewrite Z.eqb_refl. f_equal.
  rewrite <- (map_id (users d)) at 2. apply map_ext_in.
  intros u Hu. unfold has_user_id.
  destruct (next_user_id_fresh d) as [_ Hfresh]. specialize (Hfresh u Hu).
  destruct (user_id u =? next_user_id d) eqn:E; [apply Z.eqb_eq in E; lia | reflexivity].
Qed.

Lemma has_qr_code_iff (code : string) (u : user) :
  has_qr_code code u = true <-> qr_code u = Some code.
Proof.
  unfold has_qr_code. destruct (qr_code u) as [c |]; [|split; discriminate].
  rewrite String.eqb_eq. split; congruence.
Qed.

(** Under [codes_ok] the code of a row selects the rows with its id. *)
Lemma code_selects_id (d : db) (code : string) (row u : user) :
  codes_ok d -> In row (users d) -> has_qr_code code row = true -> In u (users d) ->
  (has_qr_code code u = true <-> user_id u = user_id row).
Proof.
  intros [_ Hc] Hrow Hcode Hu.
  destruct (Hc row Hrow) as [Prow Qrow]. destruct (Hc u Hu) as [Pu Qu].
  rewrite has_qr_code_iff in *. split; intros H.
  - apply CodeFacts.generate_qr_code_inj; [lia | lia | congruence].
  - rewrite Qu, H, <- Qrow. assumption.
Qed.

Lemma exec_cases (d : db) (o : op) :
  codes_ok d ->
  exec d o = d \/
  (exists c f uid ty amt pts descr,
     exec d o = posting d c f uid ty amt pts descr /\ keeps_identity f /\
     (forall u, current_points (f u) = current_points u + pts) /\
     (forall u, In u (users d) -> (c u = true <-> user_id u = uid)) /\
     String.eqb ty "bonus" = false /\
     (targets_existing d o = true -> user_exists d uid = true)) \/
  (exists tg nm ph gd,
     select_user d (has_telegram_id tg) = None /\ exec d o = registered d tg nm ph gd).
Proof.
  intros Hok. destruct o as [tg nm ph gd | uid amt | code amt | uid pts pa | uid pts descr];
    simpl exec.
  - unfold add_user. destruct (select_user d (has_telegram_id tg)) eqn:Sel; [now left|].
    destruct (existsb _ (users d)); [now left|].
    right; right. exists tg, nm, ph, gd. split; [assumption | reflexivity].
  - unfold add_purchase.
    destruct (py_int _) as [pe | e]; [|now left].
    right; left.
    exists (has_user_id uid), (credit_purchase amt pe), uid, "purchase", (Some amt), pe,
           (DescrPurchase amt).
    repeat split; auto with ledger.
    + destruct (select_user (insert_transaction _ _ _ _ _ _) _); reflexivity.
    + apply Z.eqb_eq.
    + apply Z.eqb_eq.
  - unfold add_purchase_by_qr, get_user_by_qr.
    destruct (select_user d _) as [row |] eqn:Sel; [|now left].
    destruct (py_int _) as [earned | e]; [|now left].
    apply find_some in Sel as [Hrow Hcode]. apply andb_prop in Hcode as [Hcode _].
    right; left.
    exists (has_qr_code code), (credit_purchase amt earned), (user_id row), "purchase",
           (Some amt), earned, (DescrPurchaseEvotor amt).
    repeat split; auto with ledger.
    + destruct (select_user (insert_transaction _ _ _ _ _ _) _); reflexivity.
    + apply (code_selects_id d code row u); assumption.
    + apply (code_selects_id d code row u); assumption.
    + intros _. apply user_exists_iff. eauto.
  - unfold spend_points.
    destruct (select_user d (has_user_id uid)) as [row |] eqn:Sel; [|now left].
    destruct (current_points row <? pts); [now left|].
    destruct (spend_plan pts pa) as [[points discount] | e]; [|now left].
    right; left.
    exists (has_user_id uid), (debit_points points), uid, "spend", None, (- points),
           (DescrSpend points discount).
    repeat split; auto with ledger.
    + destruct (select_user (insert_transaction _ _ _ _ _ _) _); reflexivity.
    + apply Z.eqb_eq.
    + apply Z.eqb_eq.
    + intros _. apply select_user_exists in Sel. apply user_exists_iff. eauto.
  - unfold update_user_points. right; left.
    exists (has_user_id uid), (adjust_points pts (Z.max 0 pts)), uid, "admin", None, pts,
           (DescrText descr).
    repeat split; auto with ledger.
    + apply Z.eqb_eq.
    + apply Z.eqb_eq.
Qed.

(** *** The invariants hold along every sequence of calls *)

Lemma codes_ok_posting (d : db) c f uid ty amt pts descr :
  keeps_identity f -> codes_ok d -> codes_ok (posting d c f uid ty amt pts descr).
Proof.
  intros Hf [Hseq Hc]. split; [exact Hseq|].
  intros u' Hu'. unfold posting in Hu'. simpl in Hu'.
  apply in_map_iff in Hu' as [u [<- Hu]].
  destruct (c u); [|auto]. destruct (Hf u) as [-> [-> _]]. auto.
Qed.

Lemma codes_ok_registered (d : db) tg nm ph gd :
  codes_ok d -> codes_ok (registered d tg nm ph gd).
Proof.
  intros [Hseq Hc]. destruct (next_user_id_fresh d) as [Hn _].
  split; [simpl; lia|].
  intros u. rewrite registered_users, in_app_iff. intros [Hu | [<- | []]]; [auto|].
  simpl. split; [lia | reflexivity].
Qed.

Lemma codes_ok_exec (d : db) (o : op) : codes_ok d -> codes_ok (exec d o).
Proof.
  intros Hok.
  destruct (exec_cases d o Hok)
    as [-> | [(c & f & uid & ty & amt & pts & descr & -> & Hf & Hp & Hc & Hty & Hex)
           | (tg & nm & ph & gd & _ & ->)]].
  - assumption.
  - now apply codes_ok_posting.
  - now apply codes_ok_registered.
Qed.

Lemma codes_ok_run (ops : list op) : forall d, codes_ok d -> codes_ok (run ops d).
Proof.
  induction ops as [| o ops IH]; intros d Hd; simpl; [assumption|].
  apply IH. now apply codes_ok_exec.
Qed.

Lemma codes_ok_empty : codes_ok empty_db.
Proof. split; [simpl; lia | intros u []]. Qed.

Lemma sums_ok_posting (d : db) c f uid ty amt pts descr :
  keeps_identity f ->
  (forall u, current_points (f u) = current_points u + pts) ->
  (forall u, In u (users d) -> (c u = true <-> user_id u = uid)) ->
  user_exists d uid = true ->
  sums_ok d -> sums_ok (posting d c f uid ty amt pts descr).
Proof.
  intros Hf Hpts Hc Hex [Hown Hsum]. split.
  - intros t Ht. unfold posting. unfold user_exists. simpl users.
    change (user_exists (update_users d c f) (tx_user_id t) = true).
    rewrite user_exists_update by assumption.
    simpl in Ht. apply in_app_iff in Ht as [Ht | [<- | []]]; [auto | exact Hex].
  - intros u' Hu'. unfold posting in *. simpl in Hu'.
    apply in_map_iff in Hu' as [u [<- Hu]].
    rewrite points_sum_insert.
    change (points_sum (update_users d c f)) with (points_sum d).
    assert (Eid : user_id (if c u then f u else u) = user_id u).
    { destruct (c u); [now destruct (Hf u) | reflexivity]. }
    rewrite Eid. specialize (Hc u Hu). specialize (Hsum u Hu).
    destruct (c u) eqn:Ec.
    + assert (user_id u = uid) as E by now apply Hc.
      rewrite Hpts, Hsum, E, Z.eqb_refl. reflexivity.
    + destruct (uid =? user_id u) eqn:E.
      * apply Z.eqb_eq in E. symmetry in E. apply Hc in E. discriminate.
      * lia.
Qed.

Lemma user_exists_registered (d : db) tg nm ph gd (uid : Z) :
  user_exists (registered d tg nm ph gd) uid
  = (user_exists d uid || (next_user_id d =? uid))%bool.
Proof.
  unfold user_exists. rewrite registered_users, existsb_app. simpl.
  unfold has_user_id at 2. simpl. now rewrite orb_false_r.
Qed.

Lemma next_user_id_absent (d : db) : user_exists d (next_user_id d) = false.
Proof.
  destruct (user_exists d (next_user_id d)) eqn:E; [|reflexivity].
  apply user_exists_iff in E as [u [Hu E]].
  destruct (next_user_id_fresh d) as [_ H]. specialize (H u Hu). lia.
Qed.

Lemma sums_ok_registered (d : db) tg nm ph gd :
  sums_ok d -> sums_ok (registered d tg nm ph gd).
Proof.
  intros [Hown Hsum]. pose proof (next_user_id_absent d) as Habs. split.
  - intros t Ht. rewrite user_exists_registered.
    unfold registered in Ht. simpl in Ht.
    apply in_app_iff in Ht as [Ht | [<- | []]].
    + rewrite (Hown t Ht). reflexivity.
    + simpl. rewrite Z.eqb_refl. apply orb_true_r.
  - intros u. rewrite registered_users, in_app_iff.
    unfold registered. rewrite points_sum_insert.
    match goal with |- context [points_sum (update_users ?d0 ?c ?f)] =>
      change (points_sum (update_users d0 c f)) with (points_sum d) end.
    intros [Hu | [<- | []]].
    + rewrite (Hsum u Hu).
      destruct (next_user_id d =? user_id u) eqn:E; [|lia].
      apply Z.eqb_eq in E.
      assert (user_exists d (next_user_id d) = true)
        by (apply user_exists_iff; eauto). congruence.
    + simpl user_id. simpl current_points. rewrite Z.eqb_refl.
      rewrite points_sum_no_transactions; [reflexivity|].
      intros t Ht E. specialize (Hown t Ht). congruence.
Qed.

Lemma sums_ok_exec (d : db) (o : op) :
  codes_ok d -> sums_ok d -> targets_existing d o = true -> sums_ok (exec d o).
Proof.
  intros Hok Hs Ht.
  destruct (exec_cases d o Hok)
    as [-> | [(c & f & uid & ty & amt & pts & descr & -> & Hf & Hp & Hc & Hty & Hex)
           | (tg & nm & ph & gd & _ & ->)]].
  - assumption.
  - apply sums_ok_posting; auto.
  - now apply sums_ok_registered.
Qed.

Lemma sums_ok_run (ops : list op) : forall d,
  codes_ok d -> sums_ok d -> well_targeted d ops = true -> sums_ok (run ops d).
Proof.
  induction ops as [| o ops IH]; intros d Hc Hs Hw; simpl; [assumption|].
  simpl in Hw. apply andb_prop in Hw as [Ht Hw].
  apply IH; [now apply codes_ok_exec | now apply sums_ok_exec | assumption].
Qed.

Lemma sums_ok_empty : sums_ok empty_db.
Proof. split; [intros t [] | intros u []]. Qed.

Lemma bonus_ok_posting (d : db) c f uid ty amt pts descr :
  keeps_identity f -> String.eqb ty "bonus" = false ->
  bonus_ok d -> bonus_ok (posting d c f uid ty amt pts descr).
Proof.
  intros Hf Hty Hb uid'. unfold posting.
  rewrite bonus_count_insert, Hty, andb_false_r, Nat.add_0_r.
  change (bonus_count (update_users d c f) uid') with (bonus_count d uid').
  change (user_exists (insert_transaction (update_users d c f) uid ty amt pts descr) uid')
    with (user_exists (update_users d c f) uid').
  rewrite user_exists_update by assumption. apply Hb.
Qed.

Lemma bonus_ok_registered (d : db) tg nm ph gd :
  bonus_ok d -> bonus_ok (registered d tg nm ph gd).
Proof.
  intros Hb uid'. rewrite user_exists_registered.
  unfold registered. rewrite bonus_count_insert. simpl (String.eqb "bonus" "bonus").
  rewrite andb_true_r.
  match goal with |- context [bonus_count (update_users ?d0 ?c ?f) uid'] =>
    change (bonus_count (update_users d0 c f) uid') with (bonus_count d uid') end.
  rewrite Hb. pose proof (next_user_id_absent d) as Habs.
  destruct (next_user_id d =? uid') eqn:E.
  - apply Z.eqb_eq in E. subst uid'. rewrite Habs. reflexivity.
  - rewrite orb_false_r. destruct (user_exists d uid'); reflexivity.
Qed.

Lemma bonus_ok_exec (d : db) (o : op) : codes_ok d -> bonus_ok d -> bonus_ok (exec d o).
Proof.
  intros Hok Hb.
  destruct (exec_cases d o Hok)
    as [-> | [(c & f & uid & ty & amt & pts & descr & -> & Hf & Hp & Hc & Hty & Hex)
           | (tg & nm & ph & gd & _ & ->)]].
  - assumption.
  - now apply bonus_ok_posting.
  - now apply bonus_ok_registered.
Qed.

Lemma bonus_ok_run (ops : list op) : forall d,
  codes_ok d -> bonus_ok d -> bonus_ok (run ops d).
Proof.
  induction ops as [| o ops IH]; intros d Hc Hb; simpl; [assumption|].
  apply IH; [now apply codes_ok_exec | now apply bonus_ok_exec].
Qed.

Lemma bonus_ok_empty : bonus_ok empty_db.
Proof. intros uid. reflexivity. Qed.

(** *** Reading back after a write, and the discount cap *)

(** [add_purchase_by_qr] writes nothing when no active account holds the
    code. *)
Lemma add_purchase_by_qr_unknown_code (d : db) (code : string) (amt : float) :
  get_user_by_qr d code = None -> add_purchase_by_qr d code amt = (Ok None, d).
Proof. intros H. unfold add_purchase_by_qr. now rewrite H. Qed.

Lemma select_after_posting (d : db) (f : user -> user) (uid uid' : Z) (row : user)
    ty amt pts descr :
  keeps_identity f ->
  select_user d (has_user_id uid) = Some row ->
  select_user (posting d (has_user_id uid) f uid' ty amt pts descr) (has_user_id uid)
  = Some (f row).
Proof.
  intros Hf Sel.
  change (select_user (posting d (has_user_id uid) f uid' ty amt pts descr) (has_user_id uid))
    with (select_user (update_users d (has_user_id uid) f) (has_user_id uid)).
  rewrite select_after_update, Sel by assumption. simpl.
  apply select_user_exists in Sel as [_ E].
  unfold has_user_id. rewrite E, Z.eqb_refl. reflexivity.
Qed.

Lemma spend_plan_capped (points_to_spend points : Z) (pa : float) (discount : pynum) :
  float_truthy pa = true ->
  spend_plan points_to_spend (Some pa) = Ok (points, discount) ->
  exceeds_max_discount discount = false.
Proof.
  intros Hpa. unfold spend_plan. simpl opt_float_truthy. rewrite Hpa.
  destruct (max_points_for_discount (Some pa)) as [max_points | e]; [|discriminate].
  simpl bind.
  destruct (py_float_of_int _) as [f | e]; [|discriminate].
  simpl bind. intros [= _ <-]. unfold min_discount.
  destruct (Z2float LOYALTY_SETTINGS.max_discount
            <? f * LOYALTY_SETTINGS.discount_per_point)%float eqn:E.
  - reflexivity.
  - exact E.
Qed.

End LedgerFacts.

(** ** Facts about the webhook *)

Module WebhookFacts.

Lemma zero_is_falsy (v : json) : is_zero_number v = true -> truthy v = false.
Proof.
  destruct v as [| b | n | f | s | l | l]; simpl; try discriminate.
  - now destruct b.
  - now intros ->.
  - unfold float_truthy. now intros ->.
Qed.

End WebhookFacts.

(** ** The model on concrete inputs *)

Module Examples.

Example md5_abc : MD5.hexdigest (encode "abc") = "900150983cd24fb0d6963f7d28e17f72".
Proof. vm_compute. reflexivity. Qed.

Example md5_two_blocks :
  MD5.hexdigest (encode "1234567890123456789012345678901234567890123456789012345678901234567890")
  = "689de1e396ad9c089ae2b9aaffd6faf7"
  /\ MD5.hexdigest (encode "") = "d41d8cd98f00b204e9800998ecf8427e".
Proof. vm_compute. split; reflexivity. Qed.

Example codes_of_some_ids :
  map generate_qr_code [1; 42; 999; 1000] = ["001-c4c"; "042-a1d"; "999-b70"; "1000-a9b"].
Proof. vm_compute. reflexivity. Qed.

(** The points are the floor of the rounded product: 59.99999999999999 *
    0.05 rounds to 3.0. *)
Example earned_on_rounded_product :
  py_int (0x1.dffffffffffffp+5 * LOYALTY_SETTINGS.points_per_purchase)%float = Ok 3.
Proof. vm_compute. reflexivity. Qed.

Example clamp_to_purchase :
  fst (spend_points (ledger_with_balance 5900) 1 6000 (Some 10%float))
  = Ok (true, 5500, PyFloat 5%float).
Proof. vm_compute. reflexivity. Qed.

Example webhook_ok :
  fst (evotor_webhook (fun _ => None) (fun _ => "") (ledger_with_balance 0)
         (JDict [("document",
                  JDict [("sum", JInt 1500);
                         ("extra", JDict [("clientCode", JStr "001-c4c")])])]))
  = RespOk 75 175 "Points added successfully".
Proof. vm_compute. reflexivity. Qed.

Example webhook_not_found :
  evotor_webhook (fun _ => None) (fun _ => "") (ledger_with_balance 0)
    (JDict [("total", JFloat 1500%float); ("clientCode", JStr "002-c81")])
  = (RespNotFound "Client not found", ledger_with_balance 0).
Proof. vm_compute. reflexivity. Qed.

(** The handler does not test the sign of the amount. *)
Example webhook_negative_total :
  fst (evotor_webhook (fun _ => None) (fun _ => "") (ledger_with_balance 0)
         (JDict [("total", JInt (-100)); ("clientCode", JStr "001-c4c")]))
  = RespOk (-5) 95 "Points added successfully".
Proof. vm_compute. reflexivity. Qed.

Example webhook_not_an_object :
  evotor_webhook (fun _ => None) (fun _ => "") empty_db (JList [JInt 1])
  = (RespError (StrOfException AttributeError), empty_db).
Proof. vm_compute. reflexivity. Qed.

End Examples.

(** ** Properties of the ledger and of the webhook *)




(** C2: a request for more points than the balance is refused (success
    False, the balance, 0.0) before any clamping, and the database is left
    as it was. *)
Theorem spend_points_insufficient_balance
    (d : db) (uid : Z) (row : user) (points_to_spend : Z) (purchase_amount : option float) :
  select_user d (has_user_id uid) = Some row ->
  current_points row < points_to_spend ->
  spend_points d uid points_to_spend purchase_amount
  = (Ok (false, current_points row, PyFloat 0%float), d).
Proof.
  intros Sel Hlt. unfold spend_points. rewrite Sel.
  apply Z.ltb_lt in Hlt. rewrite Hlt. reflexivity.
Qed.

Lemma spend_points_insufficient_balance_witness :
  spend_points (ledger_with_balance 900) 1 1001 (Some 10%float)
  = (Ok (false, 1000, PyFloat 0%float), ledger_with_balance 900).
Proof.
  apply (spend_points_insufficient_balance (ledger_with_balance 900) 1
           (mkUser 1 777 (Some "Anna") None None 0%float 900 1000 (Some "001-c4c") true)).
  - vm_compute. reflexivity.
  - simpl. lia.
Defined.

(** C5: after any sequence of calls, registering the same telegram_id
    twice returns the same (user_id, qr_code) both times, the second call
    leaves the database as the first left it, and the account has exactly
    one registration-bonus transaction. *)
Theorem add_user_idempotent (ops : list op) (tg : Z) (nm ph gd nm' ph' gd' : option string) :
  exists uid code d1,
    add_user (run ops empty_db) tg nm ph gd = (Ok (uid, code), d1) /\
    add_user d1 tg nm' ph' gd' = (Ok (uid, code), d1) /\
    bonus_count d1 uid = 1%nat.
Proof.
  pose proof (LedgerFacts.codes_ok_run ops empty_db LedgerFacts.codes_ok_empty) as Hc.
  pose proof (LedgerFacts.bonus_ok_run ops empty_db LedgerFacts.codes_ok_empty
                LedgerFacts.bonus_ok_empty) as Hb.
  set (d := run ops empty_db) in *.
  unfold add_user at 1.
  destruct (select_user d (has_telegram_id tg)) as [existing |] eqn:Sel.
  - exists (user_id existing), (stored_or_generated_code existing), d.
    split; [reflexivity|]. split.
    + unfold add_user. rewrite Sel. reflexivity.
    + rewrite Hb. apply find_some in Sel as [Hin _].
      replace (user_exists d (user_id existing)) with true; [reflexivity|].
      symmetry. apply LedgerFacts.user_exists_iff. eauto.
  - assert (Hfree : existsb (has_qr_code (generate_qr_code (next_user_id d))) (users d) = false).
    { destruct (existsb _ (users d)) eqn:E; [|reflexivity].
      apply existsb_exists in E as [u [Hu Hcode]].
      destruct Hc as [Hseq Hc]. destruct (Hc u Hu) as [Hpos Hq].
      destruct (LedgerFacts.next_user_id_fresh d) as [Hn Hfresh]. specialize (Hfresh u Hu).
      apply LedgerFacts.has_qr_code_iff in Hcode. rewrite Hq in Hcode.
      injection Hcode as Hcode.
      apply CodeFacts.generate_qr_code_inj in Hcode; lia. }
    rewrite Hfree.
    exists (next_user_id d), (generate_qr_code (next_user_id d)), (registered d tg nm ph gd).
    split; [reflexivity|]. split.
    + unfold add_user, select_user. rewrite LedgerFacts.registered_users, LedgerFacts.find_append.
      unfold select_user in Sel. rewrite Sel. simpl.
      unfold has_telegram_id at 1. simpl. rewrite Z.eqb_refl.
      unfold stored_or_generated_code. simpl.
      destruct (generate_qr_code (next_user_id d)); reflexivity.
    + pose proof (LedgerFacts.bonus_ok_registered d tg nm ph gd Hb (next_user_id d)) as H.
      rewrite H, LedgerFacts.user_exists_registered, Z.eqb_refl, orb_true_r. reflexivity.
Qed.

(** C6, on the code: [add_purchase] for a user_id that has no account
    commits a transaction row for that id and then raises TypeError. *)
Theorem add_purchase_missing_account :
  add_purchase empty_db 5 100%float
  = (Raise TypeError,
     mkDb [] [mkTransaction 1 5 "purchase" (Some 100%float) 5 (DescrPurchase 100%float)] 0 1).
Proof. vm_compute. reflexivity. Qed.

(** C8: the code is a function of the id alone, and among any 10,000
    sequential positive ids two ids have the same code only when they are
    the same id. *)
Theorem generate_qr_code_distinct (first i j : Z) :
  0 < first ->
  first <= i < first + 10000 ->
  first <= j < first + 10000 ->
  (generate_qr_code i = generate_qr_code j <-> i = j).
Proof.
  intros Hf Hi Hj. split.
  - apply CodeFacts.generate_qr_code_inj; lia.
  - intros ->. reflexivity.
Qed.

Lemma generate_qr_code_distinct_witness :
  generate_qr_code 1 = "001-c4c" /\ generate_qr_code 10000 = "10000-b7a" /\
  (generate_qr_code 1 = generate_qr_code 10000 <-> 1 = 10000).
Proof.
  split; [vm_compute; reflexivity|]. split; [vm_compute; reflexivity|].
  apply (generate_qr_code_distinct 1 1 10000); lia.
Defined.

(** C3, as stated, fails: with a balance of 1000 the request for 6000
    points is refused and nothing is written off, and the bound the code
    computes for a purchase of 1000.00 is 50000 points, not 5000. *)
Lemma redeem_clamp_counterexample :
  map current_points (users (ledger_with_balance 900)) = [1000]
  /\ spend_points (ledger_with_balance 900) 1 6000 (Some 1000%float)
     = (Ok (false, 1000, PyFloat 0%float), ledger_with_balance 900)
  /\ max_points_for_discount (Some 1000%float) = Ok 50000.
Proof. vm_compute. repeat split. Qed.

(** C3, amended: with a balance of 1000, max_discount 50 and
    discount_per_point 0.01, a request for 6000 points against a purchase
    of 1000.00 is refused by the balance check and writes nothing off; the
    bound computed for that purchase is int(1000.00 * 50 / 100 / 0.01) =
    50000 points; and the discount returned by a successful call with a
    non-zero purchase amount never exceeds 50. *)
Theorem redeem_clamp :
  spend_points (ledger_with_balance 900) 1 6000 (Some 1000%float)
  = (Ok (false, 1000, PyFloat 0%float), ledger_with_balance 900)
  /\ max_points_for_discount (Some 1000%float) = Ok 50000
  /\ forall d uid points_to_spend pa balance discount d',
       float_truthy pa = true ->
       spend_points d uid points_to_spend (Some pa) = (Ok (true, balance, discount), d') ->
       exceeds_max_discount discount = false.
Proof.
  split; [vm_compute; reflexivity|]. split; [vm_compute; reflexivity|].
  intros d uid pts pa balance discount d' Hpa. unfold spend_points.
  destruct (select_user d (has_user_id uid)) as [row |]; [|discriminate].
  destruct (current_points row <? pts); [discriminate|].
  destruct (spend_plan pts (Some pa)) as [[points disc] | e] eqn:Plan; [|discriminate].
  destruct (select_user _ _); [|discriminate].
  intros [= _ <- _]. exact (LedgerFacts.spend_plan_capped pts points pa disc Hpa Plan).
Qed.

Lemma redeem_clamp_witness :
  spend_points (ledger_with_balance 5900) 1 6000 (Some 1000%float)
  = (Ok (true, 0, PyInt 50),
     snd (spend_points (ledger_with_balance 5900) 1 6000 (Some 1000%float)))
  /\ exceeds_max_discount (PyInt 50) = false.
Proof.
  split; [vm_compute; reflexivity|].
  apply (proj2 (proj2 redeem_clamp) (ledger_with_balance 5900) 1 6000 1000%float 0 (PyInt 50)
           (snd (spend_points (ledger_with_balance 5900) 1 6000 (Some 1000%float)))).
  - vm_compute. reflexivity.
  - vm_compute. reflexivity.
Defined.





Section WebhookProperties.

Variable float_of_str : string -> option float.
Variable sqlite_real_text : float -> string.



End WebhookProperties.




(** ** Facts about accounts along the calls *)

Module AccountFacts.

Import LedgerFacts.

Lemma account_identity_update (c : user -> bool) (f : user -> user) (l : list user) :
  (forall u, account_identity (f u) = account_identity u) ->
  map account_identity (map (fun u => if c u then f u else u) l) = map account_identity l.
Proof.
  intros Hf. rewrite map_map. apply map_ext. intros u. destruct (c u); [apply Hf | reflexivity].
Qed.

(** A call either keeps every account's identity, or is the registration
    of a telegram id that had no account. *)
Lemma exec_accounts (d : db) (o : op) :
  map account_identity (users (exec d o)) = map account_identity (users d) \/
  exists tg nm ph gd,
    select_user d (has_telegram_id tg) = None /\ exec d o = registered d tg nm ph gd.
Proof.
  destruct o as [tg nm ph gd | uid amt | code amt | uid pts pa | uid pts descr]; simpl exec.
  - unfold add_user. destruct (select_user d (has_telegram_id tg)) eqn:Sel; [now left|].
    destruct (existsb _ (users d)); [now left|].
    right. exists tg, nm, ph, gd. split; [assumption | reflexivity].
  - left. unfold add_purchase. destruct (py_int _); [|reflexivity].
    destruct (select_user _ _); simpl; now apply account_identity_update.
  - left. unfold add_purchase_by_qr. destruct (get_user_by_qr d code); [|reflexivity].
    destruct (py_int _); [|reflexivity].
    destruct (select_user _ _); simpl; now apply account_identity_update.
  - left. unfold spend_points. destruct (select_user d (has_user_id uid)); [|reflexivity].
    destruct (current_points u <? pts); [reflexivity|].
    destruct (spend_plan pts pa) as [[points discount] |]; [|reflexivity].
    destruct (select_user _ _); simpl; now apply account_identity_update.
  - left. simpl. now apply account_identity_update.
Qed.

(** A call appends at most one transaction and touches no earlier one. *)
Lemma exec_transactions (d : db) (o : op) :
  exists new_rows,
    transactions (exec d o) = transactions d ++ new_rows /\ (List.length new_rows <= 1)%nat.
Proof.
  assert (Hsame : exists new_rows,
             transactions d = transactions d ++ new_rows /\ (List.length new_rows <= 1)%nat).
  { exists []. rewrite app_nil_r. split; [reflexivity | simpl; lia]. }
  destruct o as [tg nm ph gd | uid amt | code amt | uid pts pa | uid pts descr]; simpl exec.
  - unfold add_user. destruct (select_user d (has_telegram_id tg)); [exact Hsame|].
    destruct (existsb _ (users d)); [exact Hsame|]. simpl. eexists. split; [reflexivity|].
    simpl. lia.
  - unfold add_purchase. destruct (py_int _); [|exact Hsame].
    destruct (select_user _ _); simpl; (eexists; split; [reflexivity | simpl; lia]).
  - unfold add_purchase_by_qr. destruct (get_user_by_qr d code); [|exact Hsame].
    destruct (py_int _); [|exact Hsame].
    destruct (select_user _ _); simpl; (eexists; split; [reflexivity | simpl; lia]).
  - unfold spend_points. destruct (select_user d (has_user_id uid)); [|exact Hsame].
    destruct (current_points u <? pts); [exact Hsame|].
    destruct (spend_plan pts pa) as [[points discount] |]; [|exact Hsame].
    destruct (select_user _ _); simpl; (eexists; split; [reflexivity | simpl; lia]).
  - simpl. eexists. split; [reflexivity | simpl; lia].
Qed.

Lemma map_identity_projection {B : Type} (g : account -> B) (f : user -> B) (l l' : list user) :
  (forall u, g (account_identity u) = f u) ->
  map account_identity l = map account_identity l' -> map f l = map f l'.
Proof.
  intros Hg H. apply (f_equal (map g)) in H. rewrite !map_map in H.
  rewrite (map_ext _ _ Hg l), (map_ext _ _ Hg l') in H. exact H.
Qed.

Lemma select_none_absent (d : db) (tg : Z) :
  select_user d (has_telegram_id tg) = None -> ~ In tg (map telegram_id (users d)).
Proof.
  intros Sel Hin. apply in_map_iff in Hin as [u [E Hu]].
  pose proof (find_none _ _ Sel u Hu) as H. unfold has_telegram_id in H.
  rewrite E, Z.eqb_refl in H. discriminate.
Qed.

Lemma forallb_is_active (l : list user) :
  forallb is_active l = forallb (fun b => b) (map is_active l).
Proof. induction l as [| u l IH]; simpl; [reflexivity | now rewrite IH]. Qed.

Lemma accounts_ok_registered (d : db) tg nm ph gd :
  select_user d (has_telegram_id tg) = None ->
  accounts_ok d -> accounts_ok (registered d tg nm ph gd).
Proof.
  intros Sel (Hid & Htg & Hact). unfold accounts_ok.
  rewrite registered_users, !map_app, forallb_app. simpl.
  repeat split.
  - apply NoDup_app; [assumption | repeat constructor; intros [] |].
    intros a Ha [<- | []]. apply in_map_iff in Ha as [u [E Hu]].
    destruct (next_user_id_fresh d) as [_ H]. specialize (H u Hu). lia.
  - apply NoDup_app; [assumption | repeat constructor; intros [] |].
    intros a Ha [<- | []]. exact (select_none_absent d tg Sel Ha).
  - rewrite Hact. reflexivity.
Qed.

Lemma accounts_ok_exec (d : db) (o : op) : accounts_ok d -> accounts_ok (exec d o).
Proof.
  intros Hok. destruct (exec_accounts d o) as [H | (tg & nm & ph & gd & Sel & ->)].
  - destruct Hok as (Hid & Htg & Hact). unfold accounts_ok.
    rewrite (map_identity_projection acc_user_id user_id _ _ (fun u => eq_refl) H).
    rewrite (map_identity_projection acc_telegram_id telegram_id _ _ (fun u => eq_refl) H).
    repeat split; try assumption.
    rewrite forallb_is_active, (map_identity_projection acc_is_active is_active _ _
                                  (fun u => eq_refl) H), <- forallb_is_active.
    exact Hact.
  - now apply accounts_ok_registered.
Qed.

Lemma accounts_ok_run (ops : list op) : forall d, accounts_ok d -> accounts_ok (run ops d).
Proof.
  induction ops as [| o ops IH]; intros d Hd; simpl; [assumption|].
  apply IH. now apply accounts_ok_exec.
Qed.

Lemma accounts_ok_empty : accounts_ok empty_db.
Proof. repeat split; constructor. Qed.

(** Rows with the same id are the same row. *)
Lemma same_id_same_row (d : db) (u v : user) :
  accounts_ok d -> In u (users d) -> In v (users d) -> user_id u = user_id v -> u = v.
Proof.
  intros (Hid & _) Hu Hv E.
  induction (users d) as [| w l IH]; [destruct Hu|].
  simpl in Hid. inversion Hid as [| ? ? Hnot Hrest]; subst.
  destruct Hu as [-> | Hu], Hv as [-> | Hv].
  - reflexivity.
  - exfalso. apply Hnot. rewrite E. now apply in_map.
  - exfalso. apply Hnot. rewrite <- E. now apply in_map.
  - now apply IH.
Qed.

Lemma same_telegram_same_row (d : db) (u v : user) :
  accounts_ok d -> In u (users d) -> In v (users d) ->
  telegram_id u = telegram_id v -> u = v.
Proof.
  intros (_ & Htg & _) Hu Hv E.
  induction (users d) as [| w l IH]; [destruct Hu|].
  simpl in Htg. inversion Htg as [| ? ? Hnot Hrest]; subst.
  destruct Hu as [-> | Hu], Hv as [-> | Hv].
  - reflexivity.
  - exfalso. apply Hnot. rewrite E. now apply in_map.
  - exfalso. apply Hnot. rewrite <- E. now apply in_map.
  - now apply IH.
Qed.

Lemma all_active (d : db) (u : user) :
  accounts_ok d -> In u (users d) -> is_active u = true.
Proof. intros (_ & _ & Hact) Hu. rewrite forallb_forall in Hact. now apply Hact. Qed.

End AccountFacts.

(** ** Facts about registration and lookups *)

Module LookupFacts.

Import LedgerFacts AccountFacts.

(** A predicate that only one row satisfies finds that row. *)
Lemma find_the_row (c : user -> bool) (l : list user) (row : user) :
  In row l -> c row = true -> (forall u, In u l -> c u = true -> u = row) ->
  find c l = Some row.
Proof.
  intros Hin Hc Huniq. destruct (find c l) as [u |] eqn:F.
  - apply find_some in F as [Hu Hcu]. f_equal. now apply Huniq.
  - now rewrite (find_none _ _ F row Hin) in Hc.
Qed.

Lemma stored_code_is_generated (u : user) :
  qr_code u = Some (generate_qr_code (user_id u)) ->
  stored_or_generated_code u = generate_qr_code (user_id u).
Proof.
  intros H. unfold stored_or_generated_code. rewrite H.
  destruct (generate_qr_code (user_id u)); reflexivity.
Qed.

(** The code of the next account is held by no account yet. *)
Lemma fresh_code_free (d : db) :
  codes_ok d -> existsb (has_qr_code (generate_qr_code (next_user_id d))) (users d) = false.
Proof.
  intros [Hseq Hc]. destruct (existsb _ (users d)) eqn:E; [|reflexivity].
  apply existsb_exists in E as [u [Hu Hcode]].
  destruct (Hc u Hu) as [Hpos Hq].
  destruct (next_user_id_fresh d) as [Hn Hfresh]. specialize (Hfresh u Hu).
  apply has_qr_code_iff in Hcode. rewrite Hq in Hcode. injection Hcode as Hcode.
  apply CodeFacts.generate_qr_code_inj in Hcode; lia.
Qed.

(** On a ledger whose codes are the generated ones, [add_user] succeeds
    and the row of the telegram id is in the ledger it leaves. *)
Lemma add_user_row (d : db) (tg : Z) (nm ph gd : option string) :
  codes_ok d ->
  exists row,
    add_user d tg nm ph gd
    = (Ok (user_id row, generate_qr_code (user_id row)), exec d (OpAddUser tg nm ph gd)) /\
    In row (users (exec d (OpAddUser tg nm ph gd))) /\
    telegram_id row = tg /\
    (select_user d (has_telegram_id tg) = None ->
     row = mkUser (next_user_id d) tg nm ph gd 0%float 0 LOYALTY_SETTINGS.welcome_bonus
                  (Some (generate_qr_code (next_user_id d))) true).
Proof.
  intros Hc. simpl exec. unfold add_user.
  destruct (select_user d (has_telegram_id tg)) as [existing |] eqn:Sel.
  - exists existing. apply find_some in Sel as [Hin Htg].
    destruct Hc as [_ Hc]. destruct (Hc existing Hin) as [_ Hq].
    rewrite (stored_code_is_generated existing Hq). simpl.
    repeat split; [assumption | now apply Z.eqb_eq | discriminate].
  - pose proof (fresh_code_free d Hc) as Hfree.
    rewrite Hfree.
    exists (mkUser (next_user_id d) tg nm ph gd 0%float 0 LOYALTY_SETTINGS.welcome_bonus
                   (Some (generate_qr_code (next_user_id d))) true).
    split; [reflexivity|]. split; [|split; [reflexivity | reflexivity]].
    change (In (mkUser (next_user_id d) tg nm ph gd 0%float 0 LOYALTY_SETTINGS.welcome_bonus
                       (Some (generate_qr_code (next_user_id d))) true)
               (users (registered d tg nm ph gd))).
    rewrite registered_users, in_app_iff. right. now left.
Qed.

(** The three lookups of a row on a ledger with distinct accounts. *)
Lemma lookups_find_row (d : db) (row : user) :
  codes_ok d -> accounts_ok d -> In row (users d) ->
  get_user_by_id d (user_id row) = Some row /\
  get_user_by_qr d (generate_qr_code (user_id row)) = Some row /\
  get_user_info d (telegram_id row) = Some (info_of row).
Proof.
  intros Hc Ha Hin.
  pose proof (all_active d row Ha Hin) as Hact.
  destruct Hc as [Hseq Hcodes]. destruct (Hcodes row Hin) as [Hpos Hq].
  repeat split.
  - apply find_the_row; [assumption | apply Z.eqb_refl |].
    intros u Hu E. apply Z.eqb_eq in E. now apply (same_id_same_row d).
  - apply find_the_row; [assumption | |].
    + rewrite Hact, andb_true_r. now apply has_qr_code_iff.
    + intros u Hu E. apply andb_prop in E as [E _]. apply has_qr_code_iff in E.
      destruct (Hcodes u Hu) as [Hpu Hqu]. rewrite Hqu in E. injection E as E.
      apply CodeFacts.generate_qr_code_inj in E; [|lia | lia].
      now apply (same_id_same_row d).
  - unfold get_user_info, select_user. erewrite find_the_row; [reflexivity | eassumption | |].
    + unfold has_telegram_id. now rewrite Z.eqb_refl, Hact.
    + intros u Hu E. apply andb_prop in E as [E _]. apply Z.eqb_eq in E.
      now apply (same_telegram_same_row d).
Qed.

End LookupFacts.

(** ** Facts about the sign of float results *)

Module SignFacts.

Lemma binary_round_aux_not_negative (mx ex : Z) (lx : location) :
  not_negative (binary_round_aux prec emax false mx ex lx) = true.
Proof.
  unfold binary_round_aux.
  destruct (shr_fexp prec emax mx ex lx) as [mrs' e'].
  destruct (shr_fexp prec emax _ e' loc_Exact) as [mrs'' e''].
  destruct (shr_m mrs''); [reflexivity | | reflexivity].
  destruct (e'' <=? emax - prec); reflexivity.
Qed.

Lemma SFmul_not_negative (x : spec_float) (my : positive) (ey : Z) :
  not_negative x = true ->
  not_negative (SFmul prec emax x (S754_finite false my ey)) = true.
Proof.
  destruct x as [[] | [] | | [] m e]; simpl; try discriminate; try reflexivity.
  intros _. apply binary_round_aux_not_negative.
Qed.

Lemma SFdiv_not_negative (x : spec_float) (my : positive) (ey : Z) :
  not_negative x = true ->
  not_negative (SFdiv prec emax x (S754_finite false my ey)) = true.
Proof.
  destruct x as [[] | [] | | [] m e]; simpl; try discriminate; try reflexivity.
  intros _. destruct (SFdiv_core_binary prec emax (Zpos m) e (Zpos my) ey) as [[mz ez] lz].
  apply binary_round_aux_not_negative.
Qed.

(** A float that is not [<= 0] is not negative. *)
Lemma above_zero_not_negative (f : float) :
  (f <=? 0)%float = false -> not_negative (Prim2SF f) = true.
Proof.
  rewrite leb_spec. change (Prim2SF 0) with (S754_zero false).
  destruct (Prim2SF f) as [[] | [] | | [] m e]; simpl; try discriminate; reflexivity.
Qed.

Lemma py_int_not_negative (f : float) (n : Z) :
  not_negative (Prim2SF f) = true -> py_int f = Ok n -> 0 <= n.
Proof.
  unfold py_int. destruct (Prim2SF f) as [s | s | | s m e]; try discriminate.
  - intros _ [= <-]. lia.
  - destruct s; [discriminate|]. intros _ [= <-]. simpl. apply Z.shiftl_nonneg. lia.
Qed.

(** The bound on the points is not negative when the purchase amount is
    not [<= 0]. *)
Lemma max_points_not_negative (pa : float) (max_points : Z) :
  (pa <=? 0)%float = false ->
  max_points_for_discount (Some pa) = Ok max_points -> 0 <= max_points.
Proof.
  intros Hpa. unfold max_points_for_discount.
  destruct (float_truthy pa); [|intros [= <-]; lia].
  apply py_int_not_negative.
  rewrite !div_spec, mul_spec.
  change (Prim2SF (Z2float LOYALTY_SETTINGS.max_discount))
    with (S754_finite false 7036874417766400 (-47)).
  change (Prim2SF (Z2float 100)) with (S754_finite false 7036874417766400 (-46)).
  change (Prim2SF LOYALTY_SETTINGS.discount_per_point)
    with (S754_finite false 5764607523034235 (-59)).
  apply SFdiv_not_negative, SFdiv_not_negative, SFmul_not_negative.
  now apply above_zero_not_negative.
Qed.

(** The points [spend_plan] settles on lie between 0 and the request. *)
Lemma spend_plan_points (points_to_spend points : Z) (pa : option float) (discount : pynum) :
  0 <= points_to_spend ->
  match pa with Some a => (a <=? 0)%float = false | None => True end ->
  spend_plan points_to_spend pa = Ok (points, discount) ->
  0 <= points <= points_to_spend.
Proof.
  intros Hpts Hpa. unfold spend_plan.
  destruct (max_points_for_discount pa) as [max_points | e] eqn:Hmax; [|discriminate].
  simpl bind.
  destruct (py_float_of_int _) as [f | e]; [|discriminate]. simpl bind.
  intros [= <- _].
  destruct (opt_float_truthy pa && (max_points <? points_to_spend)) eqn:Hclamp; [|lia].
  apply andb_prop in Hclamp as [Ht Hlt]. apply Z.ltb_lt in Hlt.
  destruct pa as [a |]; [|discriminate].
  pose proof (max_points_not_negative a max_points Hpa Hmax). lia.
Qed.

End SignFacts.

(** ** Facts about redemptions *)

Module RedeemFacts.

(** A successful [spend_points] has passed the balance check and posted
    what [spend_plan] settled on. *)
Lemma spend_points_success
    (d d' : db) (uid : Z) (row : user) (points_to_spend : Z) (pa : option float)
    (balance : Z) (discount : pynum) :
  select_user d (has_user_id uid) = Some row ->
  spend_points d uid points_to_spend pa = (Ok (true, balance, discount), d') ->
  exists points,
    spend_plan points_to_spend pa = Ok (points, discount) /\
    points_to_spend <= current_points row /\
    balance = current_points row - points /\
    d' = posting d (has_user_id uid) (debit_points points) uid "spend" None (- points)
                 (DescrSpend points discount).
Proof.
  intros Sel. unfold spend_points. rewrite Sel.
  destruct (current_points row <? points_to_spend) eqn:Hlt; [discriminate|].
  apply Z.ltb_ge in Hlt.
  destruct (spend_plan points_to_spend pa) as [[points disc] | e] eqn:Plan; [|discriminate].
  fold (posting d (has_user_id uid) (debit_points points) uid "spend" None (- points)
                (DescrSpend points disc)).
  rewrite (LedgerFacts.select_after_posting d (debit_points points) uid uid row "spend" None
             (- points) (DescrSpend points disc) (LedgerFacts.keeps_identity_debit points) Sel).
  intros [= <- <- <-]. exists points. repeat split; assumption.
Qed.

End RedeemFacts.

(** ** Facts about purchases at a terminal *)

Module PurchaseFacts.

Import LedgerFacts AccountFacts LookupFacts.

(** [add_purchase_by_qr] writes only when it answers with a credit: the
    balance it reads back after the commit is always there. *)
Lemma add_purchase_by_qr_shape (d : db) (code : string) (amt : float) :
  match add_purchase_by_qr d code amt with
  | (Ok (Some (tg, earned, balance)), d') =>
      exists row u,
        get_user_by_qr d code = Some row /\ tg = telegram_id row /\
        py_int (amt * LOYALTY_SETTINGS.points_per_purchase)%float = Ok earned /\
        d' = posting d (has_qr_code code) (credit_purchase amt earned) (user_id row)
                     "purchase" (Some amt) earned (DescrPurchaseEvotor amt) /\
        select_user d' (has_user_id (user_id row)) = Some u /\ balance = current_points u
  | (_, d') => d' = d
  end.
Proof.
  unfold add_purchase_by_qr.
  destruct (get_user_by_qr d code) as [row |] eqn:Sel; [|reflexivity].
  destruct (py_int _) as [earned | e] eqn:Hint; [|reflexivity].
  cbv zeta.
  fold (posting d (has_qr_code code) (credit_purchase amt earned) (user_id row)
                "purchase" (Some amt) earned (DescrPurchaseEvotor amt)).
  assert (Hu : exists u,
             select_user (posting d (has_qr_code code) (credit_purchase amt earned)
                            (user_id row) "purchase" (Some amt) earned
                            (DescrPurchaseEvotor amt))
                         (has_user_id (user_id row)) = Some u).
  { apply user_exists_select.
    change (user_exists (update_users d (has_qr_code code) (credit_purchase amt earned))
                        (user_id row) = true).
    rewrite user_exists_update by apply keeps_identity_credit.
    apply user_exists_iff. exists row. split; [|reflexivity].
    unfold get_user_by_qr, select_user in Sel. now apply find_some in Sel as [H _]. }
  destruct Hu as [u Hu]. rewrite Hu.
  exists row, u. repeat split. exact Hu.
Qed.

(** The rows of an UPDATE whose condition selects one id. *)
Lemma other_rows_kept (d : db) (c : user -> bool) (f : user -> user) (uid : Z) (v : user) :
  (forall u, In u (users d) -> (c u = true <-> user_id u = uid)) ->
  In v (users d) -> user_id v <> uid -> In v (users (update_users d c f)).
Proof.
  intros Hc Hv Hne. apply In_update_users. exists v. split; [assumption|].
  destruct (c v) eqn:E; [|reflexivity]. exfalso. apply Hne. now apply Hc.
Qed.

(** A generated code is not the empty string. *)
Lemma generate_qr_code_not_empty (uid : Z) : String.eqb (generate_qr_code uid) "" = false.
Proof.
  apply String.eqb_neq. intros H. apply (f_equal String.length) in H.
  unfold generate_qr_code in H. rewrite !CodeFacts.append_length in H. simpl in H. lia.
Qed.

Lemma sum_of_sums (f g : Z -> Z) (ids : list Z) :
  fold_right Z.add 0 (map (fun i => f i + g i) ids)
  = fold_right Z.add 0 (map f ids) + fold_right Z.add 0 (map g ids).
Proof. induction ids as [| i ids IH]; simpl; [reflexivity | rewrite IH; lia]. Qed.

Lemma counted_never (x p : Z) (ids : list Z) :
  ~ In x ids -> fold_right Z.add 0 (map (fun i => if x =? i then p else 0) ids) = 0.
Proof.
  induction ids as [| i ids IH]; simpl; [reflexivity|]. intros H.
  destruct (x =? i) eqn:E; [apply Z.eqb_eq in E; exfalso; apply H; now left|].
  apply IH. intros Hx. apply H. now right.
Qed.

Lemma counted_once (x p : Z) (ids : list Z) :
  NoDup ids -> In x ids ->
  fold_right Z.add 0 (map (fun i => if x =? i then p else 0) ids) = p.
Proof.
  induction ids as [| i ids IH]; simpl; [intros _ []|].
  intros Hnd Hin. inversion Hnd as [| ? ? Hnot Hrest]; subst.
  destruct (x =? i) eqn:E.
  - apply Z.eqb_eq in E. subst i. rewrite counted_never by assumption. lia.
  - destruct Hin as [Hin | Hin]; [apply Z.eqb_neq in E; congruence|].
    now rewrite IH.
Qed.

(** The totals of the accounts add up to the total of all the rows: with
    distinct account ids, a row of an account is counted once. *)
Lemma sum_over_accounts (ids : list Z) (ts : list transaction) :
  NoDup ids -> (forall t, In t ts -> In (tx_user_id t) ids) ->
  fold_right Z.add 0
    (map (fun uid => fold_right Z.add 0
                       (map points_change (filter (fun t => tx_user_id t =? uid) ts))) ids)
  = fold_right Z.add 0 (map points_change ts).
Proof.
  intros Hnd. induction ts as [| t ts IH]; intros Hin.
  - clear Hnd Hin. simpl. induction ids as [| i ids IHi]; simpl; [reflexivity | exact IHi].
  - rewrite map_ext
      with (g := fun uid =>
                   (if tx_user_id t =? uid then points_change t else 0)
                   + fold_right Z.add 0
                       (map points_change (filter (fun t0 => tx_user_id t0 =? uid) ts))).
    2:{ intros uid. simpl. destruct (tx_user_id t =? uid); reflexivity. }
    rewrite sum_of_sums, IH by (intros t' Ht'; apply Hin; now right).
    rewrite counted_once; [reflexivity | assumption | apply Hin; now left].
Qed.

Lemma filter_all (l : list user) :
  forallb is_active l = true -> filter is_active l = l.
Proof.
  induction l as [| u l IH]; simpl; [reflexivity|].
  intros H. apply andb_prop in H as [-> H]. now rewrite IH.
Qed.

End PurchaseFacts.

(** ** Facts about the handlers *)

Module HandlerFacts.

Import LedgerFacts AccountFacts LookupFacts.

(** An amount that passes the [amount <= 0] test is truthy. *)
Lemma above_zero_truthy (f : float) : (f <=? 0)%float = false -> float_truthy f = true.
Proof.
  unfold float_truthy. rewrite leb_spec, FloatAxioms.eqb_spec.
  change (Prim2SF 0) with (S754_zero false).
  destruct (Prim2SF f) as [[] | [] | | [] m e]; simpl; try discriminate; reflexivity.
Qed.

(** The points earned on an amount that passes the [amount <= 0] test. *)
Lemma earned_not_negative (amt : float) (earned : Z) :
  (amt <=? 0)%float = false ->
  py_int (amt * LOYALTY_SETTINGS.points_per_purchase)%float = Ok earned -> 0 <= earned.
Proof.
  intros Hamt. apply SignFacts.py_int_not_negative. rewrite mul_spec.
  change (Prim2SF LOYALTY_SETTINGS.points_per_purchase)
    with (S754_finite false 7205759403792794 (-57)).
  now apply SignFacts.SFmul_not_negative, SignFacts.above_zero_not_negative.
Qed.

(** The row behind a profile. *)
Lemma info_row (d : db) (tg : Z) (info : user_info) :
  get_user_info d tg = Some info ->
  exists row,
    select_user d (fun u => has_telegram_id tg u && is_active u) = Some row /\
    In row (users d) /\ telegram_id row = tg /\ is_active row = true /\ info = info_of row.
Proof.
  unfold get_user_info.
  destruct (select_user d _) as [row |] eqn:Sel; [|discriminate].
  intros [= <-]. exists row. split; [reflexivity|].
  unfold select_user in Sel. apply find_some in Sel as [Hin Hc].
  apply andb_prop in Hc as [Htg Hact]. apply Z.eqb_eq in Htg.
  repeat split; assumption.
Qed.

(** The profile after an UPDATE that keeps the identity of the rows. *)
Lemma get_user_info_after_update (d : db) (c : user -> bool) (f : user -> user) (tg : Z) :
  keeps_identity f -> (forall u, is_active (f u) = is_active u) ->
  get_user_info (update_users d c f) tg
  = option_map (fun u => info_of (if c u then f u else u))
               (select_user d (fun u => has_telegram_id tg u && is_active u)).
Proof.
  intros Hf Hact. unfold get_user_info, select_user. simpl.
  rewrite find_map_same.
  - destruct (find _ (users d)); reflexivity.
  - intros u. destruct (c u); [|reflexivity].
    unfold has_telegram_id. destruct (Hf u) as (_ & _ & ->). now rewrite Hact.
Qed.

(** With every account active, a telegram id without a profile has no
    row at all. *)
Lemma no_profile_no_row (d : db) (tg : Z) :
  accounts_ok d -> get_user_info d tg = None -> select_user d (has_telegram_id tg) = None.
Proof.
  intros Ha Hinfo. unfold get_user_info in Hinfo.
  destruct (select_user d (fun u => has_telegram_id tg u && is_active u)) eqn:Sel;
    [discriminate|].
  destruct (select_user d (has_telegram_id tg)) as [u |] eqn:Sel'; [|reflexivity].
  unfold select_user in *. apply find_some in Sel' as [Hu Htg].
  pose proof (find_none _ _ Sel u Hu) as H. simpl in H.
  now rewrite Htg, (all_active d u Ha Hu) in H.
Qed.

(** The points on a negative finite amount: [int] of the product with
    [points_per_purchase] is defined and is not positive. *)
Lemma refund_points_defined (amt : float) (m : positive) (e : Z) :
  Prim2SF amt = S754_finite true m e ->
  exists earned,
    py_int (amt * LOYALTY_SETTINGS.points_per_purchase)%float = Ok earned /\ earned <= 0.
Proof.
  intros Hamt.
  pose proof (Prim2SF_valid amt) as Hv. rewrite Hamt in Hv.
  apply FloatFacts.valid_binary_bounds in Hv as [Hd He].
  unfold py_int. rewrite mul_spec, Hamt.
  change (Prim2SF LOYALTY_SETTINGS.points_per_purchase)
    with (S754_finite false 7205759403792794 (-57)).
  unfold SF64mul.
  destruct (FloatFacts.SFmul_finite true false m 7205759403792794 e (-57))
    as [-> | (m' & e' & ->)]; [lia | vm_compute; discriminate | lia | |].
  - exists 0. split; [reflexivity | lia].
  - exists (cond_Zopp true (Z.shiftl (Zpos m') e')). split; [reflexivity|].
    simpl. pose proof (Z.shiftl_nonneg (Zpos m') e'). lia.
Qed.

End HandlerFacts.

(** ** Facts about receipts *)

Module ReceiptFacts.

Section Receipts.

Variable float_of_str : string -> option float.
Variable sqlite_real_text : float -> string.

(** A receipt whose code an account holds, on a ledger with distinct
    accounts that hold their generated codes: the answer, the credited
    row, the other rows and the appended transaction. *)
Lemma webhook_posts_purchase
    (d : db) (data total : json) (code : string) (amt : float) (earned : Z) (row : user) :
  codes_ok d -> accounts_ok d ->
  extract_fields data = Ok (JStr code, total) ->
  truthy total = true ->
  py_float float_of_str total = Ok amt ->
  py_int (amt * LOYALTY_SETTINGS.points_per_purchase)%float = Ok earned ->
  get_user_by_qr d code = Some row ->
  exists d',
    evotor_webhook float_of_str sqlite_real_text d data
    = (RespOk earned (current_points row + earned) "Points added successfully", d') /\
    get_user_by_qr d' code = Some (credit_purchase amt earned row) /\
    (forall v, In v (users d) -> user_id v <> user_id row -> In v (users d')) /\
    transactions d'
    = transactions d ++ [mkTransaction (next_transaction_id d) (user_id row) "purchase"
                                       (Some amt) earned (DescrPurchaseEvotor amt)].
Proof.
  intros Hc Ha Hx Htotal Hfloat Hint Hrow.
  pose proof Hrow as Hfind. unfold get_user_by_qr, select_user in Hfind.
  apply find_some in Hfind as [Hin Hcond].
  pose proof Hcond as Hcond'. apply andb_prop in Hcond' as [Hcode Hact].
  pose proof (LedgerFacts.code_selects_id d code row) as Hsel.
  assert (Hid : select_user d (has_user_id (user_id row)) = Some row).
  { apply (LookupFacts.lookups_find_row d row Hc Ha Hin). }
  exists (posting d (has_qr_code code) (credit_purchase amt earned) (user_id row)
                  "purchase" (Some amt) earned (DescrPurchaseEvotor amt)).
  assert (Hnonempty : truthy (JStr code) = true).
  { simpl. destruct Hc as [_ Hcodes]. destruct (Hcodes row Hin) as [_ Hq].
    apply LedgerFacts.has_qr_code_iff in Hcode. rewrite Hq in Hcode. injection Hcode as <-.
    now rewrite PurchaseFacts.generate_qr_code_not_empty. }
  split; [|split; [|split; [|reflexivity]]].
  - unfold evotor_webhook. rewrite Hx, Hnonempty, Htotal, Hfloat. simpl.
    unfold add_purchase_by_qr. rewrite Hrow, Hint. cbv zeta.
    change (select_user (insert_transaction ?d1 _ _ _ _ _) ?c) with (select_user d1 c).
    rewrite LedgerFacts.select_after_update by apply LedgerFacts.keeps_identity_credit.
    rewrite Hid. simpl. rewrite Hcode. reflexivity.
  - unfold get_user_by_qr, select_user.
    apply LookupFacts.find_the_row.
    + apply (LedgerFacts.In_update_users d). exists row. split; [assumption|].
      now rewrite Hcode.
    + exact Hcond.
    + intros u' Hu' Hcu'.
      apply (LedgerFacts.In_update_users d) in Hu' as [u [Hu ->]].
      assert (Hcu : has_qr_code code u = true).
      { destruct (has_qr_code code u) eqn:E; [reflexivity|].
        apply andb_prop in Hcu' as [Hcu' _]. congruence. }
      rewrite Hcu. f_equal.
      apply (AccountFacts.same_id_same_row d); try assumption.
      now apply Hsel.
  - intros v Hv Hne.
    apply (PurchaseFacts.other_rows_kept d (has_qr_code code) _ (user_id row));
      [intros u Hu; now apply Hsel | assumption | assumption].
Qed.

End Receipts.

End ReceiptFacts.

(** ** Facts about the entry points *)

Module EntryFacts.

Import LedgerFacts AccountFacts.

Lemma well_targeted_app (ops : list op) (o : op) : forall d,
  well_targeted d (ops ++ [o]) = well_targeted d ops && targets_existing (run ops d) o.
Proof.
  induction ops as [| o' ops IH]; intros d; simpl.
  - now rewrite andb_true_r.
  - rewrite IH. now rewrite andb_assoc.
Qed.

Lemma run_app (ops : list op) (o : op) (d : db) : run (ops ++ [o]) d = exec (run ops d) o.
Proof. unfold run. now rewrite fold_left_app. Qed.

Section Entries.

Variable float_of_str : string -> option float.
Variable int_of_str : string -> option Z.
Variable py_split : string -> list string.
Variable ADMINS : list Z.
Variable sqlite_real_text : float -> string.

(** What a call of an entry point does to the ledger is what one ledger
    call that names an existing account does, or nothing. *)
Lemma serve_is_exec (d : db) (c : entry) :
  serve float_of_str int_of_str py_split ADMINS sqlite_real_text d c = d \/
  exists o, targets_existing d o = true /\
            serve float_of_str int_of_str py_split ADMINS sqlite_real_text d c = exec d o.
Proof.
  destruct c as [ud sender | ud msg | ud text | ud sender text | ud sender text
                 | ud sender text | ud text | ud sender | ud text | ud text | ud sender
                 | data]; simpl serve.
  - left. unfold start. destruct (is_admin ADMINS sender); [reflexivity|].
    destruct (get_user_info d sender); reflexivity.
  - now left.
  - now left.
  - right. exists (OpAddUser sender (ud_name ud) (ud_phone ud) (Some (gender_of_text text))).
    split; [reflexivity|]. unfold get_gender. simpl exec.
    destruct (add_user d sender _ _ _) as [[[uid code] | e] d']; [|reflexivity].
    simpl. destruct (get_user_info d' sender); reflexivity.
  - unfold add_purchase_handler.
    destruct (String.eqb text cancel_text); [now left|].
    destruct (float_of_str text) as [amt |]; [|now left].
    destruct (amt <=? 0)%float; [now left|].
    destruct (get_user_info d sender) as [info |] eqn:Hinfo; [|now left].
    right. exists (OpAddPurchase (info_user_id info) amt). split.
    + simpl. unfold get_user_info in Hinfo.
      destruct (select_user d _) as [row |] eqn:Sel; [|discriminate].
      injection Hinfo as <-. apply user_exists_iff. exists row.
      split; [|reflexivity]. unfold select_user in Sel. now apply find_some in Sel as [H _].
    + simpl exec.
      destruct (add_purchase d (info_user_id info) amt) as [[[pe nb] | e] d']; simpl.
      * destruct (py_float_of_int nb); reflexivity.
      * destruct e; reflexivity.
  - left. unfold spend_points_handler.
    destruct (String.eqb text cancel_text); [reflexivity|].
    destruct (int_of_str text) as [pts |]; [|reflexivity].
    destruct (pts <=? 0); [reflexivity|].
    destruct (get_user_info d sender) as [info |]; [|reflexivity].
    destruct (info_current_points info <? pts); reflexivity.
  - unfold calculate_discount_handler.
    destruct (String.eqb text cancel_text); [now left|].
    destruct (float_of_str text) as [pa |]; [|now left].
    destruct (pa <=? 0)%float; [now left|].
    destruct (ud_user_id ud) as [uid |]; [|now left].
    destruct (ud_points_to_spend ud) as [pts |]; [|now left].
    right. exists (OpSpendPoints uid pts (Some pa)). split; [reflexivity|]. simpl exec.
    destruct (spend_points d uid pts (Some pa)) as [[[[[] nb] disc] | e] d']; simpl;
      try reflexivity.
    destruct e; reflexivity.
  - left. unfold admin_panel. destruct (is_admin ADMINS sender); reflexivity.
  - unfold admin_add_points_handler.
    destruct (String.eqb text cancel_text); [now left|].
    destruct (py_split text) as [| first [| second [| third rest]]]; try now left.
    destruct (int_of_str first) as [uid |]; [|now left].
    destruct (int_of_str second) as [points |]; [|now left].
    destruct (get_user_by_id d uid) as [row |] eqn:Sel; [|now left].
    right. exists (OpUpdateUserPoints uid points
                     ("Изменение баланса администратором: " ++ format_signed points)%string).
    split; [|reflexivity].
    simpl. apply user_exists_iff. exists row. now apply select_user_exists.
  - left. unfold admin_edit_user_handler.
    destruct (String.eqb text cancel_text); [reflexivity|].
    destruct (int_of_str text) as [uid |]; [|reflexivity].
    destruct (get_user_by_id d uid); reflexivity.
  - now left.
  - unfold evotor_webhook.
    destruct (extract_fields data) as [[qr_code total] | e]; [|now left].
    destruct (negb (truthy qr_code) || negb (truthy total)); [now left|].
    destruct (py_float float_of_str total) as [amt | e]; [|now left].
    destruct (bound_text sqlite_real_text qr_code) as [[code |] | e]; try now left.
    right. exists (OpAddPurchaseByQr code amt). split; [reflexivity|]. simpl exec.
    destruct (add_purchase_by_qr d code amt) as [[[[[tg earned] balance] |] | e] d'];
      reflexivity.
Qed.

(** Every database the entry points reach is one that ledger calls naming
    existing accounts reach. *)
Lemma serve_all_is_run (calls : list entry) :
  exists ops,
    well_targeted empty_db ops = true /\
    serve_all float_of_str int_of_str py_split ADMINS sqlite_real_text calls empty_db
    = run ops empty_db.
Proof.
  induction calls as [| c calls IH] using rev_ind.
  - exists []. split; reflexivity.
  - destruct IH as (ops & Hw & Hrun). unfold serve_all in *.
    rewrite fold_left_app. simpl. rewrite Hrun.
    destruct (serve_is_exec (run ops empty_db) c) as [-> | (o & Ht & ->)].
    + exists ops. split; [assumption | reflexivity].
    + exists (ops ++ [o]). split.
      * now rewrite well_targeted_app, Hw, Ht.
      * now rewrite run_app.
Qed.

End Entries.

End EntryFacts.

(** ** Facts about the shape of the public code *)

Module ShapeFacts.

Lemma zeros_length (k : nat) : String.length (zeros k) = k.
Proof. induction k as [| k IH]; simpl; [reflexivity | now rewrite IH]. Qed.

(** [zfill] pads to the width and never cuts. *)
Lemma zfill_length (s : string) (width : nat) :
  String.length (zfill s width) = Nat.max width (String.length s).
Proof.
  unfold zfill. destruct (width <=? String.length s)%nat eqn:E.
  - apply Nat.leb_le in E. lia.
  - apply Nat.leb_gt in E. destruct s as [| c rest].
    + rewrite zeros_length. simpl. lia.
    + destruct (Ascii.eqb c "+" || Ascii.eqb c "-")%bool; simpl in *;
        rewrite CodeFacts.append_length, zeros_length; simpl; lia.
Qed.

End ShapeFacts.

(** ** Further properties of the ledger *)

(** X1: along any sequence of calls, the accounts and the transactions
    that were there stay, in place and with their identity; at most one
    transaction per call is added. *)
Theorem ledger_only_grows (ops : list op) (d : db) :
  exists new_users new_rows,
    map account_identity (users (run ops d))
    = map account_identity (users d) ++ map account_identity new_users /\
    transactions (run ops d) = transactions d ++ new_rows /\
    (List.length new_rows <= List.length ops)%nat /\
    (List.length new_users <= List.length ops)%nat.
Proof.
  revert d. induction ops as [| o ops IH]; intros d.
  - exists [], []. simpl. rewrite !app_nil_r. repeat split; lia.
  - simpl run. destruct (IH (exec d o)) as (nu & nr & Hu & Hr & Lr & Lu).
    destruct (AccountFacts.exec_transactions d o) as (r1 & Hr1 & Lr1).
    destruct (AccountFacts.exec_accounts d o) as [Hsame | (tg & nm & ph & gd & _ & E)].
    + exists nu, (r1 ++ nr). rewrite Hu, Hr, Hsame, Hr1, app_assoc, length_app.
      simpl. repeat split; lia.
    + exists (mkUser (next_user_id d) tg nm ph gd 0%float 0 LOYALTY_SETTINGS.welcome_bonus
                     (Some (generate_qr_code (next_user_id d))) true :: nu), (r1 ++ nr).
      rewrite Hu, Hr, Hr1, E, LedgerFacts.registered_users, map_app, <- !app_assoc, length_app.
      simpl. repeat split; lia.
Qed.

(** X2: in every ledger reached from the empty one, user ids, telegram
    ids and codes are pairwise distinct, every account is active, and
    every account holds the code generated from its id. *)
Theorem accounts_stay_distinct (ops : list op) :
  let d := run ops empty_db in
  NoDup (map user_id (users d)) /\
  NoDup (map telegram_id (users d)) /\
  NoDup (map qr_code (users d)) /\
  forallb is_active (users d) = true /\
  forallb (fun u => has_qr_code (generate_qr_code (user_id u)) u) (users d) = true.
Proof.
  intros d.
  pose proof (LedgerFacts.codes_ok_run ops empty_db LedgerFacts.codes_ok_empty) as Hc.
  pose proof (AccountFacts.accounts_ok_run ops empty_db AccountFacts.accounts_ok_empty) as Ha.
  fold d in Hc, Ha. destruct Ha as (Hid & Htg & Hact). destruct Hc as [Hseq Hc].
  repeat split; try assumption.
  - replace (map qr_code (users d))
      with (map (fun i => Some (generate_qr_code i)) (map user_id (users d))).
    + apply NoDup_map_NoDup_ForallPairs; [|assumption].
      intros a b Ha Hb E. injection E as E.
      apply in_map_iff in Ha as [u [<- Hu]]. apply in_map_iff in Hb as [v [<- Hv]].
      destruct (Hc u Hu), (Hc v Hv). apply CodeFacts.generate_qr_code_inj in E; lia.
    + rewrite map_map. apply map_ext_in. intros u Hu. symmetry. now apply Hc.
  - apply forallb_forall. intros u Hu. apply LedgerFacts.has_qr_code_iff. now apply Hc.
Qed.

(** X3: after [add_user] on a ledger reached from the empty one, the
    account is found under its telegram id, under its user id and under
    its code, and it is the same row each time. *)
Theorem registered_account_is_found (ops : list op) (tg : Z) (nm ph gd : option string) :
  exists uid code d1 row,
    add_user (run ops empty_db) tg nm ph gd = (Ok (uid, code), d1) /\
    user_id row = uid /\ telegram_id row = tg /\ qr_code row = Some code /\
    get_user_info d1 tg = Some (info_of row) /\
    get_user_by_id d1 uid = Some row /\
    get_user_by_qr d1 code = Some row.
Proof.
  pose proof (LedgerFacts.codes_ok_run ops empty_db LedgerFacts.codes_ok_empty) as Hc.
  pose proof (AccountFacts.accounts_ok_run ops empty_db AccountFacts.accounts_ok_empty) as Ha.
  set (d := run ops empty_db) in *.
  destruct (LookupFacts.add_user_row d tg nm ph gd Hc) as (row & Hadd & Hin & Htg & _).
  pose proof (LedgerFacts.codes_ok_exec d (OpAddUser tg nm ph gd) Hc) as Hc1.
  pose proof (AccountFacts.accounts_ok_exec d (OpAddUser tg nm ph gd) Ha) as Ha1.
  destruct (LookupFacts.lookups_find_row _ row Hc1 Ha1 Hin) as (L1 & L2 & L3).
  exists (user_id row), (generate_qr_code (user_id row)), (exec d (OpAddUser tg nm ph gd)), row.
  rewrite Htg in L3. destruct Hc1 as [_ Hc1]. destruct (Hc1 row Hin) as [_ Hq].
  repeat split; assumption.
Qed.

(** X4: on a ledger reached from the empty one, recording a purchase under
    the code of an active account and recording it under the account's
    user id earn the same points, return the same balance and leave the
    same accounts. *)
Theorem purchase_paths_agree (ops : list op) (code : string) (amt : float) (row : user) :
  let d := run ops empty_db in
  get_user_by_qr d code = Some row ->
  users (snd (add_purchase_by_qr d code amt)) = users (snd (add_purchase d (user_id row) amt))
  /\ fst (add_purchase_by_qr d code amt)
     = match fst (add_purchase d (user_id row) amt) with
       | Ok (earned, balance) => Ok (Some (telegram_id row, earned, balance))
       | Raise e => Raise e
       end.
Proof.
  intros d Hrow.
  pose proof (LedgerFacts.codes_ok_run ops empty_db LedgerFacts.codes_ok_empty) as Hc.
  fold d in Hc. unfold add_purchase_by_qr, add_purchase. rewrite Hrow.
  destruct (py_int _) as [earned | e]; [|split; reflexivity].
  unfold get_user_by_qr in Hrow. apply find_some in Hrow as [Hin Hcode].
  apply andb_prop in Hcode as [Hcode _].
  assert (Husers :
    users (update_users d (has_qr_code code) (credit_purchase amt earned))
    = users (update_users d (has_user_id (user_id row)) (credit_purchase amt earned))).
  { simpl. apply map_ext_in. intros u Hu.
    pose proof (LedgerFacts.code_selects_id d code row u Hc Hin Hcode Hu) as Hiff.
    unfold has_user_id. destruct (has_qr_code code u) eqn:E1.
    - replace (user_id u =? user_id row) with true; [reflexivity|].
      symmetry. apply Z.eqb_eq. now apply Hiff.
    - destruct (user_id u =? user_id row) eqn:E2; [|reflexivity].
      apply Z.eqb_eq in E2. apply Hiff in E2. discriminate. }
  assert (Hsel :
    select_user (insert_transaction
                   (update_users d (has_qr_code code) (credit_purchase amt earned))
                   (user_id row) "purchase" (Some amt) earned (DescrPurchaseEvotor amt))
                (has_user_id (user_id row))
    = select_user (insert_transaction
                     (update_users d (has_user_id (user_id row)) (credit_purchase amt earned))
                     (user_id row) "purchase" (Some amt) earned (DescrPurchase amt))
                  (has_user_id (user_id row))).
  { unfold select_user. simpl users in *. now rewrite Husers. }
  rewrite Hsel. clear Hsel.
  destruct (select_user _ _); simpl; (split; [exact Husers | reflexivity]).
Qed.

Lemma purchase_paths_agree_witness :
  fst (add_purchase_by_qr (run sample_ops empty_db) "001-c4c" 300%float) = Ok (Some (777, 15, 130))
  /\ fst (add_purchase (run sample_ops empty_db) 1 300%float) = Ok (15, 130).
Proof.
  pose proof (purchase_paths_agree sample_ops "001-c4c" 300%float
                (mkUser 1 777 (Some "Anna") (Some "+70000000000") None 1700%float 85 115
                        (Some "001-c4c") true)) as H.
  cbv zeta in H. destruct H as [_ H]; [vm_compute; reflexivity|].
  split; [rewrite H|]; vm_compute; reflexivity.
Defined.

(** X5: a redemption never overdraws.  For a request that is not negative,
    with no purchase amount or one that is not [<= 0], a successful
    [spend_points] writes off between 0 and the requested number of
    points, leaves a balance that is not negative, touches only the
    balance of the account, and records what it wrote off. *)
Theorem spend_points_never_overdraws
    (d d' : db) (uid : Z) (row : user) (points_to_spend : Z) (pa : option float)
    (balance : Z) (discount : pynum) :
  select_user d (has_user_id uid) = Some row ->
  0 <= points_to_spend ->
  match pa with Some a => (a <=? 0)%float = false | None => True end ->
  spend_points d uid points_to_spend pa = (Ok (true, balance, discount), d') ->
  exists spent,
    0 <= spent <= points_to_spend /\
    balance = current_points row - spent /\ 0 <= balance /\
    select_user d' (has_user_id uid) = Some (debit_points spent row) /\
    transactions d'
    = transactions d ++ [mkTransaction (next_transaction_id d) uid "spend" None (- spent)
                                       (DescrSpend spent discount)].
Proof.
  intros Sel Hpts Hpa Hspend.
  destruct (RedeemFacts.spend_points_success _ _ _ _ _ _ _ _ Sel Hspend)
    as (points & Plan & Hbal & -> & ->).
  pose proof (SignFacts.spend_plan_points _ _ _ _ Hpts Hpa Plan) as Hrange.
  exists points. split; [assumption|]. split; [reflexivity|]. split; [lia|].
  split; [|reflexivity].
  now apply LedgerFacts.select_after_posting; [apply LedgerFacts.keeps_identity_debit|].
Qed.

Lemma spend_points_never_overdraws_witness :
  exists spent,
    0 <= spent <= 6000 /\ 5500 = 6000 - spent /\ 0 <= 5500.
Proof.
  destruct (spend_points_never_overdraws (ledger_with_balance 5900)
              (snd (spend_points (ledger_with_balance 5900) 1 6000 (Some 10%float)))
              1 (mkUser 1 777 (Some "Anna") None None 0%float 5900 6000 (Some "001-c4c") true)
              6000 (Some 10%float) 5500 (PyFloat 5%float))
    as (spent & H1 & H2 & H3 & _).
  - vm_compute. reflexivity.
  - lia.
  - vm_compute. reflexivity.
  - vm_compute. reflexivity.
  - exists spent. change (5500 = 6000 - spent) in H2. repeat split; lia.
Defined.

(** X6: the shape of a code.  Every code is the zero-filled id, a dash
    and three characters of the digest: the id part has three characters
    or, when str(id) is longer, all of str(id), so it is never cut and the
    code of a longer id is longer than seven characters. *)
Theorem generate_qr_code_shape (uid : Z) :
  exists id_part check_part,
    generate_qr_code uid = (id_part ++ "-" ++ check_part)%string /\
    String.length id_part = Nat.max 3 (String.length (py_str uid)) /\
    String.length check_part = 3%nat /\
    String.length (generate_qr_code uid)
    = (Nat.max 3 (String.length (py_str uid)) + 4)%nat.
Proof.
  exists (zfill (py_str uid) 3), (substring 0 3 (MD5.hexdigest (encode (py_str uid)))).
  assert (Hcheck : String.length (substring 0 3 (MD5.hexdigest (encode (py_str uid)))) = 3%nat).
  { apply CodeFacts.substring_0_length. rewrite CodeFacts.hexdigest_length. lia. }
  split; [reflexivity|]. split; [apply ShapeFacts.zfill_length|]. split; [exact Hcheck|].
  unfold generate_qr_code.
  rewrite !CodeFacts.append_length, ShapeFacts.zfill_length, Hcheck. simpl. lia.
Qed.

(** ** Properties of the statistics *)

Section StatisticsProperties.

Variable sqlite_sum_real : list float -> option float.
Variable sqlite_avg_real : list float -> option float.


End StatisticsProperties.


(** ** Further properties of the webhook *)

Section WebhookLedger.

Variable float_of_str : string -> option float.
Variable sqlite_real_text : float -> string.

(** X8: the webhook writes only when it answers "ok".  For every ledger
    and every payload, an answer other than "ok" leaves the database as it
    was; an "ok" answer has appended exactly one purchase transaction, of
    the points reported, for an active account that held the code, and
    the balance reported is that account's balance after the write. *)
Theorem webhook_writes_only_on_ok (d : db) (data : json) :
  match evotor_webhook float_of_str sqlite_real_text d data with
  | (RespOk earned balance _, d') =>
      exists code amt row u,
        get_user_by_qr d code = Some row /\
        transactions d'
        = transactions d ++ [mkTransaction (next_transaction_id d) (user_id row) "purchase"
                                           (Some amt) earned (DescrPurchaseEvotor amt)] /\
        List.length (users d') = List.length (users d) /\
        select_user d' (has_user_id (user_id row)) = Some u /\ current_points u = balance
  | (_, d') => d' = d
  end.
Proof.
  unfold evotor_webhook.
  destruct (extract_fields data) as [[qr_code total] | e]; [|reflexivity].
  destruct (negb (truthy qr_code) || negb (truthy total)); [reflexivity|].
  destruct (py_float float_of_str total) as [amt | e]; [|reflexivity].
  destruct (bound_text sqlite_real_text qr_code) as [[code |] | e]; try reflexivity.
  pose proof (PurchaseFacts.add_purchase_by_qr_shape d code amt) as H.
  destruct (add_purchase_by_qr d code amt) as [[[[[tg earned] balance] |] | e] d'];
    try exact H.
  destruct H as (row & u & Hrow & _ & _ & -> & Hu & ->).
  exists code, amt, row, u. split; [assumption|]. split; [reflexivity|].
  split; [apply length_map|]. split; [assumption | reflexivity].
Qed.



End WebhookLedger.



(** ** Properties of the handlers *)

Section HandlerProperties.

Variable float_of_str : string -> option float.
Variable int_of_str : string -> option Z.
Variable py_split : string -> list string.
Variable ADMINS : list Z.
Variable sqlite_real_text : float -> string.


(** X12: the registration conversation creates the account it describes.
    On any database the entry points reach, when /start opens the
    registration for a sender, the three answers that follow (contact or
    typed phone, name, gender) end the conversation with an account that
    has the next id, the sender's telegram id, the phone and the name as
    given, the gender normalised, a balance of welcome_bonus and the code
    generated from the id; the completion message shows these values, and
    a later /start finds the sender registered. *)
Theorem registration_flow
    (calls : list entry) (ud : user_data) (sender : Z) (msg : message)
    (name_text gender_text : string) :
  let d := serve_all float_of_str int_of_str py_split ADMINS sqlite_real_text calls empty_db in
  start ADMINS d ud sender = (Ok (Some PHONE, [ReplyAskContact]), d, ud) ->
  let phone_number := match msg with MsgContact p => p | MsgText t => t end in
  let uid := next_user_id d in
  let code := generate_qr_code uid in
  let row := mkUser uid sender (Some name_text) (Some phone_number)
                    (Some (gender_of_text gender_text)) 0%float 0
                    LOYALTY_SETTINGS.welcome_bonus (Some code) true in
  exists ud1 ud2 d3,
    get_phone d ud msg = (Ok (Some NAME, [ReplyAskName]), d, ud1) /\
    get_name d ud1 name_text = (Ok (Some GENDER, [ReplyAskGender name_text]), d, ud2) /\
    get_gender d ud2 sender gender_text
    = (Ok (Some END,
           [ReplyRegistrationComplete (Some name_text) (Some phone_number)
              (Some (gender_of_text gender_text)) LOYALTY_SETTINGS.welcome_bonus
              LOYALTY_SETTINGS.welcome_bonus code]), d3, ud2) /\
    users d3 = users d ++ [row] /\
    get_user_by_qr d3 code = Some row /\
    start ADMINS d3 ud2 sender
    = (Ok (Some END, [ReplyAlreadyRegistered (Some name_text) LOYALTY_SETTINGS.welcome_bonus
                                             (Some code)]), d3, ud2).
Proof.
  intros d Hstart phone_number uid code row.
  destruct (EntryFacts.serve_all_is_run float_of_str int_of_str py_split ADMINS
              sqlite_real_text calls) as (ops & _ & Hrun).
  fold d in Hrun.
  assert (Hc : codes_ok d)
    by (rewrite Hrun; apply LedgerFacts.codes_ok_run, LedgerFacts.codes_ok_empty).
  assert (Ha : accounts_ok d)
    by (rewrite Hrun; apply AccountFacts.accounts_ok_run, AccountFacts.accounts_ok_empty).
  unfold start in Hstart.
  destruct (is_admin ADMINS sender) eqn:Hadmin; [discriminate|].
  destruct (get_user_info d sender) as [info |] eqn:Hinfo; [discriminate|]. clear Hstart.
  pose proof (HandlerFacts.no_profile_no_row d sender Ha Hinfo) as Hnone.
  set (ud2 := mkUserData (Some phone_number) (Some name_text) (ud_points_to_spend ud)
                         (ud_user_id ud)).
  set (d3 := registered d sender (Some name_text) (Some phone_number)
                        (Some (gender_of_text gender_text))).
  assert (Husers : users d3 = users d ++ [row]) by apply LedgerFacts.registered_users.
  assert (Hc3 : codes_ok d3) by now apply LedgerFacts.codes_ok_registered.
  assert (Ha3 : accounts_ok d3) by now apply AccountFacts.accounts_ok_registered.
  assert (Hin : In row (users d3)) by (rewrite Husers, in_app_iff; right; now left).
  destruct (LookupFacts.lookups_find_row d3 row Hc3 Ha3 Hin) as (_ & Hqr & Hprofile).
  change (user_id row) with uid in Hqr. fold code in Hqr.
  change (telegram_id row) with sender in Hprofile.
  exists (mkUserData (Some phone_number) (ud_name ud) (ud_points_to_spend ud) (ud_user_id ud)),
         ud2, d3.
  split; [reflexivity|]. split; [reflexivity|].
  split; [|split; [exact Husers | split; [exact Hqr|]]].
  - assert (Hadd : add_user d sender (Some name_text) (Some phone_number)
                            (Some (gender_of_text gender_text))
                   = (Ok (uid, code), d3)).
    { unfold add_user. rewrite Hnone, (LookupFacts.fresh_code_free d Hc). reflexivity. }
    unfold get_gender. simpl ud_name. simpl ud_phone. rewrite Hadd, Hprofile. reflexivity.
  - unfold start. rewrite Hadmin, Hprofile. reflexivity.
Qed.




End HandlerProperties.

Lemma registration_flow_witness :
  exists ud2 d3,
    get_gender empty_db ud2 777 "👩 Женский"
    = (Ok (Some END,
           [ReplyRegistrationComplete (Some "Anna") (Some "+70000000000") (Some "женский")
                                      100 100 "001-c4c"]), d3, ud2) /\
    get_user_by_qr d3 "001-c4c"
    = Some (mkUser 1 777 (Some "Anna") (Some "+70000000000") (Some "женский") 0%float 0 100
                   (Some "001-c4c") true).
Proof.
  destruct (registration_flow sample_float_of_str sample_int_of_str sample_split [1]
              (fun _ => "") [] empty_user_data 777 (MsgContact "+70000000000") "Anna"
              "👩 Женский" eq_refl)
    as (ud1 & ud2 & d3 & _ & _ & H3 & _ & H5 & _).
  exists ud2, d3. vm_compute in H3, H5. split; [exact H3 | exact H5].
Defined.


